(** * The configuration generator of the IoT gateway client

    A shallow embedding of [app/utils/config-builder.js] and the properties
    its specification states about it.

    The module derives a gateway identity from the MAC address of a network
    interface, resolves per-platform configuration paths, and writes two
    configuration files: one for the access-point daemon (hostapd) and one
    for the gateway agent.

    Conventions of the embedding:
    - JavaScript strings are Rocq strings; the embedding is exact on ASCII
      text, which is what MAC addresses, paths and identifiers are made of.
    - JSON data is the inductive type [jsval]; objects list their own
      properties in enumeration order.
    - A method of the builder is a function of the builder (the receiver
      [this]) that returns its result, the builder afterwards and the
      trace of what it asked of the outside world (logger, hardware lookup,
      file system).  The answers of the outside world during one call are
      the record [Env].
    - A promise is represented by how it settles: [Resolved], [Rejected],
      or [Pending] when nothing ever settles it. *)

From Stdlib Require Import String Ascii List ZArith Lia Bool Arith.
From Stdlib Require Import DecimalString DecimalPos.
Import ListNotations.
Open Scope string_scope.

(* ===================================================================== *)
(** ** JavaScript values and built-ins *)
(* ===================================================================== *)

Module JS.

(** *** Strings *)

Definition code (c : ascii) : nat := nat_of_ascii c.

Definition is_lower (c : ascii) : bool :=
  (97 <=? code c)%nat && (code c <=? 122)%nat.
Definition is_upper (c : ascii) : bool :=
  (65 <=? code c)%nat && (code c <=? 90)%nat.

(** [String.prototype.toUpperCase] and [toLowerCase], one character. *)
Definition upper_char (c : ascii) : ascii :=
  if is_lower c then ascii_of_nat (code c - 32) else c.
Definition lower_char (c : ascii) : ascii :=
  if is_upper c then ascii_of_nat (code c + 32) else c.

Fixpoint map_string (f : ascii -> ascii) (s : string) : string :=
  match s with
  | EmptyString => EmptyString
  | String c r => String (f c) (map_string f r)
  end.

Definition toUpperCase : string -> string := map_string upper_char.
Definition toLowerCase : string -> string := map_string lower_char.

(** [s.replace(/c/g, '')] for a one-character pattern: every occurrence
    of [c] is dropped. *)
Fixpoint remove_all (c : ascii) (s : string) : string :=
  match s with
  | EmptyString => EmptyString
  | String d r => if Ascii.eqb d c then remove_all c r
                  else String d (remove_all c r)
  end.

(** [Array.prototype.join] on an array of strings. *)
Fixpoint join (sep : string) (parts : list string) : string :=
  match parts with
  | [] => ""
  | [p] => p
  | p :: rest => p ++ sep ++ join sep rest
  end.

(** [s.split(c)] for a one-character separator: the pieces of [s]
    between the occurrences of [c] (always at least one piece). *)
Fixpoint split (c : ascii) (s : string) : list string :=
  match s with
  | EmptyString => [""]
  | String d r =>
      if Ascii.eqb d c then "" :: split c r
      else match split c r with
           | [] => [String d ""]
           | p :: ps => String d p :: ps
           end
  end.

Definition newline : ascii := ascii_of_nat 10.
Definition LF : string := String newline "".
Definition colon : ascii := ascii_of_nat 58.

Fixpoint contains_char (c : ascii) (s : string) : bool :=
  match s with
  | EmptyString => false
  | String d r => Ascii.eqb d c || contains_char c r
  end.

Fixpoint all_chars (p : ascii -> bool) (s : string) : bool :=
  match s with
  | EmptyString => true
  | String d r => p d && all_chars p r
  end.

Definition is_empty (s : string) : bool :=
  match s with EmptyString => true | _ => false end.

Definition is_digit (c : ascii) : bool :=
  (48 <=? code c)%nat && (code c <=? 57)%nat.

(** *** Values *)

#[warnings="-register-all"]
Inductive jsval : Type :=
| JUndefined
| JNull
| JBool (b : bool)
| JNum (n : Z)
| JStr (s : string)
| JArr (items : list jsval)
| JObj (props : list (string * jsval)).

Inductive jstype : Type :=
| TUndefined | TObject | TBoolean | TNumber | TString | TFunction.

Definition jstype_eqb (a b : jstype) : bool :=
  match a, b with
  | TUndefined, TUndefined | TObject, TObject | TBoolean, TBoolean
  | TNumber, TNumber | TString, TString | TFunction, TFunction => true
  | _, _ => false
  end.

Definition typeof (v : jsval) : jstype :=
  match v with
  | JUndefined => TUndefined
  | JNull => TObject
  | JBool _ => TBoolean
  | JNum _ => TNumber
  | JStr _ => TString
  | JArr _ | JObj _ => TObject
  end.

(** ToBoolean: what [if (v)] and [!v] test. *)
Definition truthy (v : jsval) : bool :=
  match v with
  | JUndefined | JNull => false
  | JBool b => b
  | JNum n => negb (n =? 0)%Z
  | JStr s => negb (is_empty s)
  | JArr _ | JObj _ => true
  end.

Fixpoint assoc (k : string) (props : list (string * jsval)) : option jsval :=
  match props with
  | [] => None
  | (k', v) :: rest => if String.eqb k' k then Some v else assoc k rest
  end.

(** [v.k] for a data value and a name [k] that no primitive and no array
    has (the module reads [connectorTypes] only): reading a property of
    [undefined] or [null] throws a TypeError ([None]); a primitive, an
    array or an object without the property gives [undefined]. *)
Definition get_prop (v : jsval) (k : string) : option jsval :=
  match v with
  | JUndefined | JNull => None
  | JObj props =>
      match assoc k props with Some x => Some x | None => Some JUndefined end
  | _ => Some JUndefined
  end.

(** *** JSON.stringify *)

Definition dquote : ascii := ascii_of_nat 34.
Definition backslash : ascii := ascii_of_nat 92.

Definition hex_digit (n : nat) : ascii :=
  if (n <? 10)%nat then ascii_of_nat (48 + n) else ascii_of_nat (87 + n).

(** The escape of one character inside a JSON string literal. *)
Definition quote_char (c : ascii) : string :=
  let n := code c in
  if Ascii.eqb c dquote then String backslash (String dquote "")
  else if Ascii.eqb c backslash then String backslash (String backslash "")
  else if (n =? 8)%nat then String backslash "b"
  else if (n =? 12)%nat then String backslash "f"
  else if (n =? 10)%nat then String backslash "n"
  else if (n =? 13)%nat then String backslash "r"
  else if (n =? 9)%nat then String backslash "t"
  else if (n <? 32)%nat then
    String backslash
      ("u00" ++ String (hex_digit (n / 16)) (String (hex_digit (n mod 16)) ""))
  else String c "".

Fixpoint quote_body (s : string) : string :=
  match s with
  | EmptyString => ""
  | String c r => quote_char c ++ quote_body r
  end.

Definition QuoteJSONString (s : string) : string :=
  String dquote (quote_body s ++ String dquote "").

(** Numbers of the embedding are integers, printed in decimal. *)
Definition Number_toString (n : Z) : string :=
  NilZero.string_of_int (Z.to_int n).

(** SerializeJSONProperty of ECMAScript: [None] is the [undefined] that
    makes an object skip the property and an array print [null].
    [gap] is the indentation unit, [indent] the current indentation. *)
Fixpoint SerializeJSONProperty (gap indent : string) (v : jsval)
  : option string :=
  match v with
  | JUndefined => None
  | JNull => Some "null"
  | JBool true => Some "true"
  | JBool false => Some "false"
  | JNum n => Some (Number_toString n)
  | JStr s => Some (QuoteJSONString s)
  | JArr items =>
      let stepback := indent in
      let indent := indent ++ gap in
      let partial :=
        (fix elements (l : list jsval) : list string :=
           match l with
           | [] => []
           | x :: r =>
               match SerializeJSONProperty gap indent x with
               | Some t => t
               | None => "null"
               end :: elements r
           end) items in
      Some (match partial with
            | [] => "[]"
            | _ =>
                if is_empty gap then "[" ++ join "," partial ++ "]"
                else "[" ++ LF ++ indent
                     ++ join ("," ++ LF ++ indent) partial
                     ++ LF ++ stepback ++ "]"
            end)
  | JObj props =>
      let stepback := indent in
      let indent := indent ++ gap in
      let partial :=
        (fix members (l : list (string * jsval)) : list string :=
           match l with
           | [] => []
           | (k, x) :: r =>
               match SerializeJSONProperty gap indent x with
               | Some t =>
                   (QuoteJSONString k ++ ":"
                    ++ (if is_empty gap then "" else " ") ++ t) :: members r
               | None => members r
               end
           end) props in
      Some (match partial with
            | [] => "{}"
            | _ =>
                if is_empty gap then "{" ++ join "," partial ++ "}"
                else "{" ++ LF ++ indent
                     ++ join ("," ++ LF ++ indent) partial
                     ++ LF ++ stepback ++ "}"
            end)
  end.

Fixpoint spaces (n : nat) : string :=
  match n with O => "" | S k => String " " (spaces k) end.

(** [JSON.stringify(v, null, space)] with a numeric [space]. *)
Definition JSON_stringify (v : jsval) (space : nat) : option string :=
  SerializeJSONProperty (spaces (Nat.min 10 space)) "" v.

End JS.

Import JS.

(* ===================================================================== *)
(** ** Errors, promises and the outside world *)
(* ===================================================================== *)

(** The error an [fs] callback receives, by its system code (ENOENT, ...). *)
Definition ioerr : Type := string.

(** What [os.platform()] can return. *)
Inductive platform : Type :=
| aix | android | darwin | freebsd | linux | openbsd | sunos | win32.

(** The values the module throws or rejects a promise with.  A formatted
    message is represented by its format and the values it is built
    from. *)
Inductive reason : Type :=
| InvalidLogger
    (* new Error('Invalid logger specified (arg #1)') *)
| InvalidLocalNetworkGateway (address : jsval)
    (* new Error('Invalid local network gateway address specified: [%s]') *)
| TypeError
    (* raised by the runtime: a property of undefined or null is read, or
       something that is not a function is called *)
| SyntaxError
    (* raised by JSON.parse *)
| MacLookupFailed (iface : jsval)
    (* 'Unable to get mac address of outbound network interface: [%s]' *)
| IoError (err : ioerr)
    (* the error object of an fs callback, passed on as it is *)
| NotApplicable
    (* 'Config file is not applicable on current platform' *)
| DirectoryNotFound (dir : string) (err : ioerr)
    (* 'Unable to find directory: [%s]' *)
| WriteFailed (path : string) (err : ioerr).
    (* 'Error writing to file: [%s]' *)

Inductive level : Type := LevelDebug | LevelInfo | LevelError.

Inductive logarg : Type :=
| AStr (s : string)
| AVal (v : jsval)
| APlatform (p : platform)
| AReason (r : reason).

(** What a call asks of the outside world, in order. *)
Inductive event : Type :=
| Log (lvl : level) (format : string) (args : list logarg)
| MacaddressOne (iface : jsval)          (* _macaddress.one(iface, cb) *)
| Stat (dir : string)                    (* _fs.stat(dir, cb) *)
| ReadFile (path : string)               (* _fs.readFile(path, cb) *)
| WriteFile (path : string) (data : string). (* _fs.writeFile(path, data, cb) *)

Definition is_write (e : event) : bool :=
  match e with WriteFile _ _ => true | _ => false end.

Definition is_fs (e : event) : bool :=
  match e with Stat _ | ReadFile _ | WriteFile _ _ => true | _ => false end.

Definition is_error_log (e : event) : bool :=
  match e with Log LevelError _ _ => true | _ => false end.

(** The callback of [_macaddress.one] receives [(err, mac)]. *)
Inductive lookup_result : Type :=
| LookupError (err : ioerr)
| LookupOk (mac : jsval).

(** How the outside world answers during one call. *)
Record Env : Type := {
  macaddress_one : jsval -> lookup_result;
  fs_stat : string -> option ioerr;               (* Some err: stat failed *)
  fs_readFile : string -> ioerr + string;
  fs_writeFile : string -> string -> option ioerr (* Some err: write failed *)
}.

(** Built-ins of Node.js the module calls and this file does not define. *)
Class Node : Type := {
  os_platform : platform;                  (* os.platform() *)
  path_resolve : string -> string;         (* path.resolve(p) *)
  path_parse_dir : string -> string;       (* path.parse(p).dir *)
  JSON_parse : string -> option jsval      (* None: a SyntaxError is thrown *)
}.

(** [GLOBAL.config], as far as the module reads it.  A path is a string
    when it is defined. *)
Record Config : Type := {
  cfg_config_file : option string;
  cfg_local_network_gateway : jsval;
  cfg_outbound_network_interface : jsval;
  cfg_baseline_config_file : string;
  cfg_local_network_interface : jsval
}.

Module Q.

(** A promise, by the way it settles. [Pending]: it never does. *)
Inductive promise (A : Type) : Type :=
| Resolved (value : A)
| Rejected (r : reason)
| Pending.
Arguments Resolved {A} value.
Arguments Rejected {A} r.
Arguments Pending {A}.

(** [def.resolve(v)] and [def.reject(r)] on the promise of a deferred:
    only the first settlement counts. *)
Definition resolve {A} (v : A) (def : promise A) : promise A :=
  match def with Pending => Resolved v | _ => def end.
Definition reject {A} (r : reason) (def : promise A) : promise A :=
  match def with Pending => Rejected r | _ => def end.

Definition is_rejected {A} (p : promise A) : bool :=
  match p with Rejected _ => true | _ => false end.

End Q.
Import Q.

(* ===================================================================== *)
(** ** Methods as actions on the builder *)
(* ===================================================================== *)

(** The fields of an instance.  The logger is not a field here: what is
    logged appears in the trace, and the methods are embedded for a logger
    that implements [debug], [info] and [error]. *)
Record ConfigBuilder : Type := {
  _platform : platform;
  _gatewayId : option string;          (* null, or the cached identity *)
  _localNetworkGatewayIP : string
}.

Definition Action (A : Type) : Type :=
  ConfigBuilder -> A * ConfigBuilder * list event.

Definition ret {A} (a : A) : Action A := fun this => (a, this, []).

Definition bind {A B} (m : Action A) (k : A -> Action B) : Action B :=
  fun this =>
    let '(a, this1, t1) := m this in
    let '(b, this2, t2) := k a this1 in
    (b, this2, (t1 ++ t2)%list).

Declare Scope action_scope.
Delimit Scope action_scope with action.
Notation "x <- m ;; k" := (bind m (fun x => k))
  (at level 61, m at next level, right associativity) : action_scope.
Notation "m ;; k" := (bind m (fun _ => k))
  (at level 61, right associativity) : action_scope.
Open Scope action_scope.

Definition emit (e : event) : Action unit := fun this => (tt, this, [e]).
Definition log (lvl : level) (format : string) (args : list logarg)
  : Action unit := emit (Log lvl format args).
Definition get_this : Action ConfigBuilder := fun this => (this, this, []).
Definition with_gatewayId (this : ConfigBuilder) (id : string)
  : ConfigBuilder :=
  {| _platform := _platform this;
     _gatewayId := Some id;
     _localNetworkGatewayIP := _localNetworkGatewayIP this |}.
Definition set_gatewayId (id : string) : Action unit :=
  fun this => (tt, with_gatewayId this id, []).

(** The three components of what an action returns. *)
Definition outcome {A} (r : A * ConfigBuilder * list event) : A := fst (fst r).
Definition after {A} (r : A * ConfigBuilder * list event) : ConfigBuilder :=
  snd (fst r).
Definition trace {A} (r : A * ConfigBuilder * list event) : list event := snd r.

(** What a handler passed to [then] does: return a value, throw, or
    return another promise (the action itself). *)
Definition return_ {A} (v : A) : Action (promise A) := ret (Resolved v).
Definition throw {A} (r : reason) : Action (promise A) := ret (Rejected r).

(** [p.then(onFulfilled)]: a rejection passes through. *)
Definition then_ {A B} (p : Action (promise A))
    (onFulfilled : A -> Action (promise B)) : Action (promise B) :=
  s <- p ;;
  match s with
  | Resolved v => onFulfilled v
  | Rejected r => ret (Rejected r)
  | Pending => ret Pending
  end.

(** [p.then(onFulfilled, onRejected)]. *)
Definition then_else {A B} (p : Action (promise A))
    (onFulfilled : A -> Action (promise B))
    (onRejected : reason -> Action (promise B)) : Action (promise B) :=
  s <- p ;;
  match s with
  | Resolved v => onFulfilled v
  | Rejected r => onRejected r
  | Pending => ret Pending
  end.

(** ToBoolean of a value that is undefined, null or a string. *)
Definition truthy_string (o : option string) : bool :=
  match o with Some s => negb (is_empty s) | None => false end.

(** The names every object inherits from [Object.prototype]. *)
Definition Object_prototype_has (k : string) : bool :=
  existsb (String.eqb k)
    ["constructor"; "toString"; "toLocaleString"; "valueOf";
     "hasOwnProperty"; "isPrototypeOf"; "propertyIsEnumerable";
     "__proto__"; "__defineGetter__"; "__defineSetter__";
     "__lookupGetter__"; "__lookupSetter__"].

(** What [CONFIG_PATHS[target]] can be: one of the two tables of the
    literal, or a member inherited from [Object.prototype]. *)
Inductive paths_entry : Type :=
| PerPlatform (on_linux on_darwin : option string)
| Inherited.

(** [configInfo[platform]]. *)
Definition for_platform (info : paths_entry) (p : platform) : option string :=
  match info, p with
  | PerPlatform on_linux _, linux => on_linux
  | PerPlatform _ on_darwin, darwin => on_darwin
  | _, _ => None
  end.

(** The argument of the constructor: a data value, a function, or an
    object with the methods of a logger. *)
Inductive argument : Type :=
| Data (v : jsval)
| Function_
| Logger.

Definition typeof_arg (a : argument) : jstype :=
  match a with
  | Data v => typeof v
  | Function_ => TFunction
  | Logger => TObject
  end.

Definition truthy_arg (a : argument) : bool :=
  match a with Data v => truthy v | _ => true end.

Section Builder.

Context {node : Node}.
Variable GLOBAL_config : Config.

Definition CONFIG_PATHS (target : string) : option paths_entry :=
  if target =? "hostapd_conf" then
    Some (PerPlatform (Some "/etc/hostapd/hostapd.conf")
                      (Some (path_resolve "./.tmp/hostapd.conf")))
  else if target =? "gateway_agent_conf" then
    Some (PerPlatform (cfg_config_file GLOBAL_config)
                      (cfg_config_file GLOBAL_config))
  else if Object_prototype_has target then Some Inherited
  else None.

(** [new ConfigBuilder(logger)]: the error thrown, or the instance. *)
Definition new_ConfigBuilder (logger : argument)
  : (reason + ConfigBuilder) * list event :=
  if negb (truthy_arg logger)
     || negb (jstype_eqb (typeof_arg logger) TObject) then
    (inl InvalidLogger, [])
  else
    let ip := cfg_local_network_gateway GLOBAL_config in
    match ip with
    | JStr address =>
        if (String.length address <=? 0)%nat then
          match logger with
          | Logger =>
              (inl (InvalidLocalNetworkGateway ip),
               [Log LevelError
                  "Invalid local network gateway address specified: [%s]"
                  [AVal ip]])
          | _ => (inl TypeError, [])   (* logger.error is not a function *)
          end
        else
          (inr {| _platform := os_platform;
                  _gatewayId := None;
                  _localNetworkGatewayIP := address |}, [])
    | _ =>
        match logger with
        | Logger =>
            (inl (InvalidLocalNetworkGateway ip),
             [Log LevelError
                "Invalid local network gateway address specified: [%s]"
                [AVal ip]])
        | _ => (inl TypeError, [])
        end
    end.

Definition _getGatewayId (env : Env) : Action (promise string) :=
  this <- get_this ;;
  let iface := cfg_outbound_network_interface GLOBAL_config in
  let lookup : Action (promise string) :=
    emit (MacaddressOne iface) ;;
    match macaddress_one env iface with
    | LookupError err =>
        log LevelError
          "Unable to get mac address of outbound network interface: [%s]"
          [AVal iface] ;;
        ret (Rejected (MacLookupFailed iface))
    | LookupOk (JStr mac) =>
        let id := toUpperCase (remove_all colon mac) in
        set_gatewayId id ;;
        ret (Resolved id)
    | LookupOk _ =>
        (* mac.replace(...) throws; the catch clause logs and rejects *)
        log LevelError "%s" [AReason TypeError] ;;
        ret (Rejected TypeError)
    end in
  (* if (this._gatewayId): null and the empty string are falsy *)
  match _gatewayId this with
  | Some id => if negb (is_empty id) then ret (Resolved id) else lookup
  | None => lookup
  end.

Definition _getConfigPath (target : string) : Action (option string) :=
  this <- get_this ;;
  match CONFIG_PATHS target with
  | None =>
      log LevelError
        "Unable to determine config file path for target: [%s]"
        [AStr target] ;;
      ret None
  | Some configInfo =>
      let configInfo := for_platform configInfo (_platform this) in
      if negb (truthy_string configInfo) then
        log LevelError
          "Config target [%s] not defined for current platform: [%s]"
          [AStr target; APlatform (_platform this)] ;;
        ret None
      else ret configInfo
  end.

(** Resolves with the parsed document, or with the raw content as a
    string value when [parse] is false. *)
Definition _readExistingConfig (env : Env) (path : string) (parse : bool)
  : Action (promise jsval) :=
  log LevelDebug "Obtaining existing configuration from: [%s]"
    [AStr path] ;;
  emit (ReadFile path) ;;
  match fs_readFile env path with
  | inl err =>
      log LevelError "Error reading existing configuration file: [%s]"
        [AReason (IoError err)] ;;
      ret (Rejected (IoError err))
  | inr data =>
      if parse then
        match JSON_parse data with
        | Some config => ret (Resolved config)
        | None =>
            log LevelError
              "Error parsing existing configuration file: [%s]"
              [AReason SyntaxError] ;;
            ret (Rejected SyntaxError)
        end
      else ret (Resolved (JStr data))
  end.

Definition _ensureConfig (env : Env) (target : string)
  : Action (promise string) :=
  path <- _getConfigPath target ;;
  (* if (!path): null and the empty string are falsy *)
  match path with
  | None => ret (Rejected NotApplicable)
  | Some path =>
      if is_empty path then ret (Rejected NotApplicable)
      else
        let dir := path_parse_dir path in
        emit (Stat dir) ;;
        match fs_stat env dir with
        | Some err =>
            log LevelError "Unable to find directory: [%s]"
              [AStr dir; AReason (IoError err)] ;;
            ret (Rejected (DirectoryNotFound dir err))
        | None =>
            log LevelDebug "Parent directory for file exists: [%s]"
              [AStr path] ;;
            ret (Resolved path)
        end
  end.

(** The deferred [def] is settled only inside the fulfilment handler:
    [then] is given no rejection handler. *)
Definition _writeConfig (env : Env) (target : string) (data : string)
  : Action (promise unit) :=
  let def : promise unit := Pending in
  ensured <- _ensureConfig env target ;;
  match ensured with
  | Resolved path =>
      log LevelDebug "Writing config data to file: [%s]" [AStr path] ;;
      emit (WriteFile path data) ;;
      def <- match fs_writeFile env path data with
             | Some err =>
                 log LevelError "Error writing to file: [%s]"
                   [AStr path; AReason (IoError err)] ;;
                 ret (reject (WriteFailed path err) def)
             | None => ret def
             end ;;
      log LevelInfo "Config file written successfully: [%s]"
        [AStr path] ;;
      log LevelDebug "Config data: [%s]" [AStr data] ;;
      ret (resolve tt def)
  | Rejected _ => ret def
  | Pending => ret def
  end.

(** The array [config] of [generateHostApConfig]. *)
Definition hostApConfig (gatewayId : string) : list string :=
  [ "interface=wlan0";
    "";
    "ssid=" ++ gatewayId;
    "wpa_passphrase=" ++ toLowerCase gatewayId;
    "channel=6";
    "";
    "wmm_enabled=1";
    "wpa=1";
    "wpa_key_mgmt=WPA-PSK";
    "wpa_pairwise=TKIP";
    "rsn_pairwise=CCMP";
    "macaddr_acl=0";
    "auth_algs=1" ].

Definition generateHostApConfig (env : Env) (requestId : jsval)
  : Action (promise unit) :=
  log LevelDebug "Generating host ap configuration. RequestId: [%s]"
    [AVal requestId] ;;
  then_else
    (then_ (_getGatewayId env)
       (fun gatewayId =>
          let config := hostApConfig gatewayId in
          _writeConfig env "hostapd_conf" (join LF config)))
    (fun _ =>
       log LevelInfo
         "Host AP configuration updated successfully. RequestId: [%s]"
         [AVal requestId] ;;
       return_ tt)
    (fun err =>
       log LevelError
         "Error updating host ap configuration. RequestId: [%s]"
         [AVal requestId; AReason err] ;;
       throw err).

(** The object [newConfig] of [generateGatewayAgentConfig]. *)
Definition newConfig (this : ConfigBuilder) (gatewayId : string)
    (connectorTypes : jsval) : jsval :=
  let cloudConnectorName := gatewayId ++ "-cnc-cloud" in
  let deviceConnectorName := gatewayId ++ "-cnc-gateway" in
  JObj
    [ ("connectorTypes", connectorTypes);
      ("deviceConnectors",
        JObj [ (deviceConnectorName,
                 JObj [ ("type", JStr "CncGateway");
                        ("config", JObj []) ]) ]);
      ("cloudConnectors",
        JObj [ (cloudConnectorName,
                 JObj [ ("type", JStr "CncCloud");
                        ("config",
                          JObj [ ("host", JStr (_localNetworkGatewayIP this));
                                 ("port", JNum 1883);
                                 ("protocol", JStr "mqtt");
                                 ("account", JStr gatewayId);
                                 ("networkInterface",
                                   cfg_local_network_interface GLOBAL_config);
                                 ("gatewayname", JStr gatewayId);
                                 ("topics", JStr "") ]) ]) ]) ].

(** The closure variable [gatewayId] is assigned by the first handler
    and read by the second: the handlers that follow the first are
    nested in it, which settles the chain the same way.  The third handler
    starts [_writeConfig] and returns nothing: the trace lists what the
    write does where it is started, and the promise of the write is
    dropped. *)
Definition generateGatewayAgentConfig (env : Env) (requestId : jsval)
  : Action (promise unit) :=
  log LevelDebug "Generating gateway agent configuration. RequestId: [%s]"
    [AVal requestId] ;;
  then_else
    (then_ (_getGatewayId env)
       (fun id =>
          let gatewayId := id in
          then_
            (then_
               (_readExistingConfig env
                  (cfg_baseline_config_file GLOBAL_config) true)
               (fun config =>
                  this <- get_this ;;
                  match get_prop config "connectorTypes" with
                  | None => throw TypeError
                  | Some connectorTypes =>
                      return_ (newConfig this gatewayId connectorTypes)
                  end))
            (fun config =>
               match JSON_stringify config 4 with
               | Some payload =>
                   (* the promise of _writeConfig is not returned *)
                   _writeConfig env "gateway_agent_conf" payload ;;
                   return_ tt
               | None =>
                   (* not reached: an object always has a JSON text *)
                   return_ tt
               end)))
    (fun _ =>
       log LevelInfo
         "Gateway agent configuration updated successfully. RequestId: [%s]"
         [AVal requestId] ;;
       return_ tt)
    (fun err =>
       log LevelError
         "Error updating gateway agent configuration. RequestId: [%s]"
         [AVal requestId; AReason err] ;;
       throw err).

End Builder.

Arguments _getGatewayId : simpl never.
Arguments _getConfigPath : simpl never.
Arguments _readExistingConfig : simpl never.
Arguments _ensureConfig : simpl never.
Arguments _writeConfig : simpl never.
Arguments generateHostApConfig : simpl never.
Arguments generateGatewayAgentConfig : simpl never.

(* ===================================================================== *)
(** ** The payload of the button connector *)
(* ===================================================================== *)

(** [ButtonMqttConnector.prototype._parsePayload] of
    [app/connectors/button-mqtt-connector.js], with the built-ins it
    calls.  A message of the broker is a buffer, which [parseInt] reads
    through its content as a string: it is a string value here.  The
    file names [MqttConnector] without defining it; the method is
    embedded as it is written. *)
Module Connector.

(** A Number as [parseInt] gives one: NaN, or an integer.  The integer is
    the mathematical value of the digits read; the Number of JavaScript
    is the double nearest to it, the same below 2^53 in magnitude (and
    the negative zero is zero here). *)
Inductive number : Type :=
| NaN
| Int (n : Z).

Definition isNaN (x : number) : bool :=
  match x with NaN => true | Int _ => false end.

(** The white space [parseInt] skips, as far as ASCII has it. *)
Definition is_space (c : ascii) : bool :=
  (code c =? 9)%nat || (code c =? 10)%nat || (code c =? 11)%nat
  || (code c =? 12)%nat || (code c =? 13)%nat || (code c =? 32)%nat.

Fixpoint trim_start (s : string) : string :=
  match s with
  | String c r => if is_space c then trim_start r else s
  | EmptyString => s
  end.

(** A character as a digit: 0 to 9, then the letters for 10 to 35. *)
Definition digit_value (c : ascii) : option Z :=
  if is_digit c then Some (Z.of_nat (code c - 48))
  else if is_lower c then Some (Z.of_nat (code c - 87))
  else if is_upper c then Some (Z.of_nat (code c - 55))
  else None.

(** The value of the digits of radix [R] at the start of [s], read from
    the left on top of [acc]; [None] as long as no digit was read. *)
Fixpoint read_digits (R : Z) (acc : option Z) (s : string) : option Z :=
  match s with
  | EmptyString => acc
  | String c r =>
      match digit_value c with
      | Some d =>
          if (d <? R)%Z then
            read_digits R
              (Some (R * match acc with Some a => a | None => 0 end + d)%Z) r
          else acc
      | None => acc
      end
  end.

Definition hex_prefixed (s : string) : bool :=
  match s with
  | String "0" (String c _) => Ascii.eqb c "x" || Ascii.eqb c "X"
  | _ => false
  end.

(** [parseInt(input)], with no radix given. *)
Definition parseInt (input : string) : number :=
  let text := trim_start input in
  let '(sign, text) :=
    match text with
    | String c r =>
        if Ascii.eqb c "-" then ((-1)%Z, r)
        else if Ascii.eqb c "+" then (1%Z, r)
        else (1%Z, text)
    | EmptyString => (1%Z, text)
    end in
  let '(R, text) :=
    if hex_prefixed text
    then (16%Z, substring 2 (String.length text - 2) text)
    else (10%Z, text) in
  match read_digits R None text with
  | None => NaN
  | Some mathInt => Int (sign * mathInt)
  end.

(** ToString of a data value: what [parseInt] reads of its argument. *)
Fixpoint ToString (v : jsval) : string :=
  match v with
  | JUndefined => "undefined"
  | JNull => "null"
  | JBool true => "true"
  | JBool false => "false"
  | JNum n => Number_toString n
  | JStr s => s
  | JArr items =>
      join ","
        ((fix elements (l : list jsval) : list string :=
            match l with
            | [] => []
            | x :: r =>
                match x with
                | JUndefined | JNull => ""
                | _ => ToString x
                end :: elements r
            end) items)
  | JObj _ => "[object Object]"
  end.

Definition _parsePayload (message : jsval) : number :=
  if jstype_eqb (typeof message) TUndefined
     || match message with JNull => true | _ => false end
  then Int 0
  else
    let payload := parseInt (ToString message) in
    let payload := if isNaN payload then Int (-1) else payload in
    payload.


(** The first character of a text is a decimal digit. *)
Definition starts_with_digit (s : string) : bool :=
  match s with String c _ => is_digit c | EmptyString => false end.

End Connector.

(* ===================================================================== *)
(** ** A runtime and a configuration to evaluate the methods on *)
(* ===================================================================== *)

Module Sample.

(** A reader of JSON texts whose numbers are integers and whose strings
    have no escape sequences. *)

Definition is_ws (c : ascii) : bool :=
  (code c =? 32)%nat || (code c =? 10)%nat
  || (code c =? 13)%nat || (code c =? 9)%nat.

Fixpoint skip_ws (s : string) : string :=
  match s with
  | String c r => if is_ws c then skip_ws r else s
  | EmptyString => s
  end.

(** The characters up to the closing quote, and what follows it. *)
Fixpoint read_string (s : string) : option (string * string) :=
  match s with
  | EmptyString => None
  | String c r =>
      if Ascii.eqb c dquote then Some ("", r)
      else if Ascii.eqb c backslash || (code c <? 32)%nat then None
      else match read_string r with
           | Some (body, rest) => Some (String c body, rest)
           | None => None
           end
  end.

Fixpoint read_digits (acc : Z) (s : string) : Z * string :=
  match s with
  | String c r =>
      if is_digit c then read_digits (10 * acc + Z.of_nat (code c - 48)) r
      else (acc, s)
  | EmptyString => (acc, s)
  end.

(** Digits with no superfluous leading zero. *)
Definition read_nat (s : string) : option (Z * string) :=
  match s with
  | String c r =>
      if Ascii.eqb c "0" then
        match r with
        | String d _ => if is_digit d then None else Some (0%Z, r)
        | EmptyString => Some (0%Z, r)
        end
      else if is_digit c then Some (read_digits 0 s)
      else None
  | EmptyString => None
  end.

Definition expect (word : string) (v : jsval) (s : string)
  : option (jsval * string) :=
  if prefix word s
  then Some (v, substring (String.length word)
                          (String.length s - String.length word) s)
  else None.

(** A later member with the same key replaces the value in place. *)
Fixpoint set_prop (k : string) (v : jsval) (props : list (string * jsval))
  : list (string * jsval) :=
  match props with
  | [] => [(k, v)]
  | (k', v') :: rest =>
      if String.eqb k' k then (k', v) :: rest
      else (k', v') :: set_prop k v rest
  end.

Fixpoint read_value (fuel : nat) (s : string) : option (jsval * string) :=
  match fuel with
  | O => None
  | S fuel =>
      match skip_ws s with
      | EmptyString => None
      | String c r =>
          if Ascii.eqb c "{" then
            match skip_ws r with
            | String "}" r' => Some (JObj [], r')
            | _ => read_members fuel [] r
            end
          else if Ascii.eqb c "[" then
            match skip_ws r with
            | String "]" r' => Some (JArr [], r')
            | _ => read_elements fuel [] r
            end
          else if Ascii.eqb c dquote then
            match read_string r with
            | Some (body, rest) => Some (JStr body, rest)
            | None => None
            end
          else if Ascii.eqb c "-" then
            match read_nat r with
            | Some (n, rest) => Some (JNum (- n), rest)
            | None => None
            end
          else if is_digit c then
            match read_nat (String c r) with
            | Some (n, rest) => Some (JNum n, rest)
            | None => None
            end
          else if Ascii.eqb c "t" then expect "true" (JBool true) (String c r)
          else if Ascii.eqb c "f" then expect "false" (JBool false) (String c r)
          else if Ascii.eqb c "n" then expect "null" JNull (String c r)
          else None
      end
  end
with read_members (fuel : nat) (acc : list (string * jsval)) (s : string)
  : option (jsval * string) :=
  match fuel with
  | O => None
  | S fuel =>
      match skip_ws s with
      | String c r =>
          if Ascii.eqb c dquote then
            match read_string r with
            | Some (key, rest) =>
                match skip_ws rest with
                | String ":" rest =>
                    match read_value fuel rest with
                    | Some (v, rest) =>
                        let acc := set_prop key v acc in
                        match skip_ws rest with
                        | String "," rest => read_members fuel acc rest
                        | String "}" rest => Some (JObj acc, rest)
                        | _ => None
                        end
                    | None => None
                    end
                | _ => None
                end
            | None => None
            end
          else None
      | EmptyString => None
      end
  end
with read_elements (fuel : nat) (acc : list jsval) (s : string)
  : option (jsval * string) :=
  match fuel with
  | O => None
  | S fuel =>
      match read_value fuel s with
      | Some (v, rest) =>
          let acc := (acc ++ [v])%list in
          match skip_ws rest with
          | String "," rest => read_elements fuel acc rest
          | String "]" rest => Some (JArr acc, rest)
          | _ => None
          end
      | None => None
      end
  end.

Definition parse (text : string) : option jsval :=
  match read_value (S (String.length text)) text with
  | Some (v, rest) => if is_empty (skip_ws rest) then Some v else None
  | None => None
  end.

(** The directory part of a path with no trailing slash. *)
Definition dirname (p : string) : string :=
  let dir := join "/" (removelast (split "/" p)) in
  if is_empty dir && prefix "/" p then "/" else dir.

(** [path.resolve] of a relative path with no [..] segment, in the
    working directory /opt/iot-client. *)
Definition resolve (p : string) : string :=
  if prefix "/" p then p
  else if prefix "./" p
  then "/opt/iot-client/" ++ substring 2 (String.length p - 2) p
  else "/opt/iot-client/" ++ p.

Definition on (p : platform) : Node :=
  {| os_platform := p;
     path_resolve := resolve;
     path_parse_dir := dirname;
     JSON_parse := parse |}.

Definition config : Config :=
  {| cfg_config_file := Some "/etc/iot-client/gateway.json";
     cfg_local_network_gateway := JStr "192.168.42.1";
     cfg_outbound_network_interface := JStr "eth0";
     cfg_baseline_config_file := "/etc/iot-client/baseline.json";
     cfg_local_network_interface := JStr "wlan0" |}.

(** The same configuration with another gateway address, and with
    another path of the gateway agent file. *)
Definition with_gateway (address : jsval) : Config :=
  {| cfg_config_file := cfg_config_file config;
     cfg_local_network_gateway := address;
     cfg_outbound_network_interface := cfg_outbound_network_interface config;
     cfg_baseline_config_file := cfg_baseline_config_file config;
     cfg_local_network_interface := cfg_local_network_interface config |}.

Definition with_config_file (path : option string) : Config :=
  {| cfg_config_file := path;
     cfg_local_network_gateway := cfg_local_network_gateway config;
     cfg_outbound_network_interface := cfg_outbound_network_interface config;
     cfg_baseline_config_file := cfg_baseline_config_file config;
     cfg_local_network_interface := cfg_local_network_interface config |}.

(** A builder as the constructor returns it. *)
Definition builder_on (p : platform) : ConfigBuilder :=
  {| _platform := p;
     _gatewayId := None;
     _localNetworkGatewayIP := "192.168.42.1" |}.

Definition builder : ConfigBuilder := builder_on linux.

(** A host whose interface has the given address and whose baseline
    file has the given content; [missing] lists the directories that do
    not exist and [readonly] the files that cannot be written. *)
Definition host (mac : lookup_result) (baseline : string)
    (missing readonly : list string) : Env :=
  {| macaddress_one := fun _ => mac;
     fs_stat := fun dir =>
       if existsb (String.eqb dir) missing then Some "ENOENT" else None;
     fs_readFile := fun path =>
       if String.eqb path "/etc/iot-client/baseline.json"
       then inr baseline else inl "ENOENT";
     fs_writeFile := fun path _ =>
       if existsb (String.eqb path) readonly then Some "EACCES" else None |}.

Definition q : string := String dquote "".

(** The text {"connectorTypes":["X"]}. *)
Definition baseline_X : string :=
  "{" ++ q ++ "connectorTypes" ++ q ++ ":[" ++ q ++ "X" ++ q ++ "]}".

(** The text {"name":"gw"}: an object with no connectorTypes. *)
Definition baseline_no_types : string :=
  "{" ++ q ++ "name" ++ q ++ ":" ++ q ++ "gw" ++ q ++ "}".

End Sample.


(* ===================================================================== *)
(** ** Notions the properties are stated with *)
(* ===================================================================== *)

Definition is_hex (c : ascii) : bool :=
  is_digit c
  || ((97 <=? code c)%nat && (code c <=? 102)%nat)
  || ((65 <=? code c)%nat && (code c <=? 70)%nat).

Definition is_upper_hex (c : ascii) : bool :=
  is_digit c || ((65 <=? code c)%nat && (code c <=? 70)%nat).

Definition is_octet (s : string) : bool :=
  (String.length s =? 2)%nat && all_chars is_hex s.

(** Six octets of two hexadecimal digits, separated by colons. *)
Definition valid_mac (m : string) : bool :=
  match split colon m with
  | [o1; o2; o3; o4; o5; o6] => forallb is_octet [o1; o2; o3; o4; o5; o6]
  | _ => false
  end.

(** The lines of a text, and how many of them are blank. *)
Definition lines (text : string) : list string := split newline text.
Definition blank_lines (ls : list string) : nat :=
  List.length (filter is_empty ls).

(** The keys of the literal [CONFIG_PATHS]. *)
Definition known_target (target : string) : bool :=
  (target =? "hostapd_conf") || (target =? "gateway_agent_conf").

Definition supported (p : platform) : bool :=
  match p with linux | darwin => true | _ => false end.

(** The resolver in closed form: the result, the builder and the trace. *)
Definition path_or_null `{Node} (cfg : Config) (target : string)
    (this : ConfigBuilder) : option string * ConfigBuilder * list event :=
  match CONFIG_PATHS cfg target with
  | None =>
      (None, this,
       [Log LevelError
          "Unable to determine config file path for target: [%s]"
          [AStr target]])
  | Some info =>
      if truthy_string (for_platform info (_platform this)) then
        (for_platform info (_platform this), this, [])
      else
        (None, this,
         [Log LevelError
            "Config target [%s] not defined for current platform: [%s]"
            [AStr target; APlatform (_platform this)]])
  end.

(** What the constructor establishes and every method keeps. *)
Definition constructed `{Node} (cfg : Config) (this : ConfigBuilder) : Prop :=
  _platform this = os_platform
  /\ cfg_local_network_gateway cfg = JStr (_localNetworkGatewayIP this)
  /\ _localNetworkGatewayIP this <> "".

(** Two builders with the same platform and gateway address, and the
    actions that leave both as they are. *)
Definition same_host (a b : ConfigBuilder) : Prop :=
  _platform a = _platform b
  /\ _localNetworkGatewayIP a = _localNetworkGatewayIP b.

Definition keeps_host {A} (m : Action A) : Prop :=
  forall this, same_host (after (m this)) this.

(** [n] calls in a row, each with its own answers of the outside world:
    the outcomes and traces of the calls, and the builder in the end. *)
Fixpoint repeatedly {A} (m : Env -> Action A) (envs : list Env)
    (this : ConfigBuilder) : list (A * list event) * ConfigBuilder :=
  match envs with
  | [] => ([], this)
  | env :: rest =>
      let '(a, this1, t) := m env this in
      let '(results, this2) := repeatedly m rest this1 in
      ((a, t) :: results, this2)
  end.

(** More notions, for the properties of the second part of the file. *)

Definition is_lookup (e : event) : bool :=
  match e with MacaddressOne _ => true | _ => false end.

Definition is_stat (e : event) : bool :=
  match e with Stat _ => true | _ => false end.

Definition is_read (e : event) : bool :=
  match e with ReadFile _ => true | _ => false end.

(** How often a character occurs in a string. *)
Fixpoint count_char (c : ascii) (s : string) : nat :=
  match s with
  | EmptyString => 0
  | String d r => (if Ascii.eqb d c then 1 else 0) + count_char c r
  end.



(** A parsed baseline that has no [connectorTypes] to read, and is not
    [null]: an object without the key, an array, or a primitive. *)
Definition lacks_connectorTypes (config : jsval) : bool :=
  match config with
  | JUndefined | JNull => false
  | JObj props =>
      match assoc "connectorTypes" props with Some _ => false | None => true end
  | _ => true
  end.

(** How the gateway agent generator settles, read off the identity, the
    read and the parse. *)
Definition gateway_agent_verdict `{Node} (cfg : Config) (env : Env)
    (identity : promise string) : promise unit :=
  match identity with
  | Rejected e => Rejected e
  | Pending => Pending
  | Resolved _ =>
      match fs_readFile env (cfg_baseline_config_file cfg) with
      | inl err => Rejected (IoError err)
      | inr data =>
          match JSON_parse data with
          | None => Rejected SyntaxError
          | Some JNull | Some JUndefined => Rejected TypeError
          | Some _ => Resolved tt
          end
      end
  end.

(** One call of a generator, and a series of calls on one builder, each
    with its own answers of the outside world. *)
Inductive request : Type :=
| HostAp (requestId : jsval)
| GatewayAgent (requestId : jsval).

Definition generate `{Node} (cfg : Config) (call : Env * request)
  : Action (promise unit) :=
  match snd call with
  | HostAp requestId => generateHostApConfig cfg (fst call) requestId
  | GatewayAgent requestId => generateGatewayAgentConfig cfg (fst call) requestId
  end.

Fixpoint session `{Node} (cfg : Config) (calls : list (Env * request))
    (this : ConfigBuilder) : list (promise unit * list event) * ConfigBuilder :=
  match calls with
  | [] => ([], this)
  | call :: rest =>
      let '(a, this1, t) := generate cfg call this in
      let '(results, this2) := session cfg rest this1 in
      ((a, t) :: results, this2)
  end.


(* ===================================================================== *)
(** ** Strings: case, colons, lines *)
(* ===================================================================== *)

Lemma append_empty_r (s : string) : s ++ "" = s.
Proof. induction s; simpl; congruence. Qed.

Lemma length_append (a b : string) :
  String.length (a ++ b) = String.length a + String.length b.
Proof. induction a; simpl; congruence. Qed.

Lemma map_string_append f (a b : string) :
  map_string f (a ++ b) = map_string f a ++ map_string f b.
Proof. induction a; simpl; congruence. Qed.

Lemma length_map_string f (s : string) :
  String.length (map_string f s) = String.length s.
Proof. induction s; simpl; congruence. Qed.

Lemma all_chars_append p (a b : string) :
  all_chars p (a ++ b) = all_chars p a && all_chars p b.
Proof.
  induction a as [|c a IH]; simpl; [reflexivity|].
  rewrite IH. now rewrite andb_assoc.
Qed.

Lemma all_chars_map_string (p q : ascii -> bool) f (s : string) :
  (forall c, p c = true -> q (f c) = true) ->
  all_chars p s = true -> all_chars q (map_string f s) = true.
Proof.
  intros Hf. induction s as [|c s IH]; simpl; [reflexivity|].
  intros H. apply andb_prop in H as [Hc Hs].
  now rewrite (Hf _ Hc), IH.
Qed.

Lemma upper_char_hex (c : ascii) :
  is_hex c = true -> is_upper_hex (upper_char c) = true.
Proof.
  destruct c as [[] [] [] [] [] [] [] []]; vm_compute; congruence.
Qed.

Lemma join_empty_cons (p : string) (ps : list string) :
  join "" (p :: ps) = p ++ join "" ps.
Proof.
  destruct ps; simpl; [now rewrite append_empty_r | reflexivity].
Qed.

(** Dropping the separators is concatenating the pieces. *)
Lemma remove_all_split (c : ascii) (s : string) :
  remove_all c s = join "" (split c s).
Proof.
  induction s as [|d s IH]; [reflexivity|].
  cbn [remove_all split]. destruct (Ascii.eqb d c).
  - rewrite join_empty_cons. exact IH.
  - destruct (split c s) as [|p ps] eqn:E.
    + rewrite IH. reflexivity.
    + rewrite IH, !join_empty_cons. reflexivity.
Qed.

Lemma split_no_separator (c : ascii) (s : string) :
  contains_char c s = false -> split c s = [s].
Proof.
  induction s as [|d s IH]; [reflexivity|].
  cbn [contains_char split]. intros H.
  apply orb_false_elim in H as [Hd Hs].
  rewrite Hd, (IH Hs). reflexivity.
Qed.

Lemma split_append_separator (c : ascii) (p rest : string) :
  contains_char c p = false ->
  split c (p ++ String c rest) = p :: split c rest.
Proof.
  induction p as [|d p IH]; cbn [contains_char append split]; intros H.
  - now rewrite Ascii.eqb_refl.
  - apply orb_false_elim in H as [Hd Hp].
    rewrite Hd, (IH Hp). reflexivity.
Qed.

(** Splitting a joined text at its separator gives the pieces back, when
    no piece contains the separator. *)
Lemma split_join (c : ascii) (ls : list string) :
  ls <> [] ->
  forallb (fun l => negb (contains_char c l)) ls = true ->
  split c (join (String c "") ls) = ls.
Proof.
  induction ls as [|p ps IH]; [congruence|].
  intros _ H. cbn [forallb] in H. apply andb_prop in H as [Hp Hps].
  apply negb_true_iff in Hp.
  destruct ps as [|p' ps].
  - cbn [join]. now apply split_no_separator.
  - change (join (String c "") (p :: p' :: ps))
      with (p ++ String c (join (String c "") (p' :: ps))).
    rewrite split_append_separator by assumption.
    f_equal. apply IH; [congruence | assumption].
Qed.

Lemma contains_char_append (c : ascii) (a b : string) :
  contains_char c (a ++ b) = contains_char c a || contains_char c b.
Proof.
  induction a as [|d a IH]; simpl; [reflexivity|].
  rewrite IH. now rewrite orb_assoc.
Qed.

Lemma lower_char_newline (c : ascii) :
  Ascii.eqb (lower_char c) newline = Ascii.eqb c newline.
Proof.
  destruct c as [[] [] [] [] [] [] [] []]; vm_compute; reflexivity.
Qed.

Lemma contains_newline_toLowerCase (s : string) :
  contains_char newline (toLowerCase s) = contains_char newline s.
Proof.
  unfold toLowerCase.
  induction s as [|c s IH]; [reflexivity|].
  cbn [map_string contains_char].
  now rewrite IH, lower_char_newline.
Qed.

(* ===================================================================== *)
(** ** The identity resolver *)
(* ===================================================================== *)

Ltac unfold_action :=
  unfold then_else, then_, return_, throw, bind, ret, emit, log, get_this,
    set_gatewayId, outcome, after, trace in *.

Section Identity.

Variable cfg : Config.

Abbreviation iface := (cfg_outbound_network_interface cfg).

Lemma getGatewayId_cached env this id :
  _gatewayId this = Some id -> id <> "" ->
  _getGatewayId cfg env this = (Resolved id, this, []).
Proof.
  intros Hc Hid. unfold _getGatewayId. unfold_action.
  rewrite Hc. destruct id; [congruence | reflexivity].
Qed.

(** Without a usable cache the call is the hardware lookup. *)
Lemma getGatewayId_uncached env this :
  truthy_string (_gatewayId this) = false ->
  _getGatewayId cfg env this =
    match macaddress_one env iface with
    | LookupError err =>
        (Rejected (MacLookupFailed iface), this,
         [MacaddressOne iface;
          Log LevelError
            "Unable to get mac address of outbound network interface: [%s]"
            [AVal iface]])
    | LookupOk (JStr mac) =>
        (Resolved (toUpperCase (remove_all colon mac)),
         with_gatewayId this (toUpperCase (remove_all colon mac)),
         [MacaddressOne iface])
    | LookupOk _ =>
        (Rejected TypeError, this,
         [MacaddressOne iface; Log LevelError "%s" [AReason TypeError]])
    end.
Proof.
  intros Hc. unfold _getGatewayId. unfold_action. 
  destruct (_gatewayId this) as [[|c id]|]; try discriminate; simpl;
    destruct (macaddress_one env iface) as [err|[]]; reflexivity.
Qed.

Lemma getGatewayId_never_pending env this :
  outcome (_getGatewayId cfg env this) <> Pending.
Proof.
  destruct (truthy_string (_gatewayId this)) eqn:Hc.
  - destruct (_gatewayId this) as [id|] eqn:E; [|discriminate].
    rewrite (getGatewayId_cached env this id E) by (destruct id; easy).
    discriminate.
  - rewrite (getGatewayId_uncached env this Hc).
    destruct (macaddress_one env iface) as [err|[]]; discriminate.
Qed.

(** The platform and the gateway address of a builder never change. *)
Lemma getGatewayId_keeps env this :
  _platform (after (_getGatewayId cfg env this)) = _platform this
  /\ _localNetworkGatewayIP (after (_getGatewayId cfg env this))
     = _localNetworkGatewayIP this.
Proof.
  destruct (truthy_string (_gatewayId this)) eqn:Hc.
  - destruct (_gatewayId this) as [id|] eqn:E; [|discriminate].
    rewrite (getGatewayId_cached env this id E) by (destruct id; easy).
    now split.
  - rewrite (getGatewayId_uncached env this Hc).
    destruct (macaddress_one env iface) as [err|[]]; now split.
Qed.

(** A call that resolves leaves the identity in the cache. *)
Lemma getGatewayId_resolved env this id :
  outcome (_getGatewayId cfg env this) = Resolved id ->
  _gatewayId (after (_getGatewayId cfg env this)) = Some id.
Proof.
  destruct (truthy_string (_gatewayId this)) eqn:Hc.
  - destruct (_gatewayId this) as [id'|] eqn:E; [|discriminate].
    rewrite (getGatewayId_cached env this id' E) by (destruct id'; easy).
    unfold outcome, after; simpl. congruence.
  - rewrite (getGatewayId_uncached env this Hc).
    destruct (macaddress_one env iface) as [err|[]];
      unfold outcome, after; simpl; congruence.
Qed.

Lemma repeatedly_cached envs this id :
  _gatewayId this = Some id -> id <> "" ->
  repeatedly (_getGatewayId cfg) envs this
  = (map (fun _ => (Resolved id, [])) envs, this).
Proof.
  intros Hc Hid. induction envs as [|env envs IH]; [reflexivity|].
  cbn [repeatedly map].
  rewrite (getGatewayId_cached env this id Hc Hid), IH. reflexivity.
Qed.

End Identity.

Lemma is_octet_spec (o : string) :
  is_octet o = true -> String.length o = 2 /\ all_chars is_hex o = true.
Proof.
  unfold is_octet. intros H. apply andb_prop in H as [Hl Hh].
  apply Nat.eqb_eq in Hl. now split.
Qed.

(** The identity of a well-formed MAC address: twelve upper-case
    hexadecimal digits. *)
Lemma valid_mac_identity (m : string) :
  valid_mac m = true ->
  String.length (toUpperCase (remove_all colon m)) = 12
  /\ all_chars is_upper_hex (toUpperCase (remove_all colon m)) = true.
Proof.
  unfold valid_mac. rewrite remove_all_split.
  destruct (split colon m) as [|o1 [|o2 [|o3 [|o4 [|o5 [|o6 [|o7 os]]]]]]];
    try discriminate.
  intros H. cbn [forallb] in H.
  repeat (apply andb_prop in H as [?Ho H]).
  repeat match goal with
         | Ho : is_octet _ = true |- _ =>
             apply is_octet_spec in Ho as [?Hl ?Hh]
         end.
  rewrite !join_empty_cons. cbn [join]. unfold toUpperCase. split.
  - rewrite length_map_string, !length_append. simpl. lia.
  - apply (all_chars_map_string is_hex); [exact upper_char_hex|].
    rewrite !all_chars_append.
    repeat match goal with H : all_chars _ _ = true |- _ => rewrite H end.
    reflexivity.
Qed.

Section IdentityClaims.

Variable cfg : Config.

(** C3. When the hardware lookup for the configured outbound interface
    returns the string [m], the call resolves with
    [toUpperCase (m without its colons)] and caches it; the identity is a
    function of [m] alone; for six colon-separated octets it has twelve
    characters, all upper-case hexadecimal digits. *)
Theorem C3_identity_is_normalized_mac (env : Env) (this : ConfigBuilder)
    (m : string) :
  truthy_string (_gatewayId this) = false ->
  macaddress_one env (cfg_outbound_network_interface cfg)
    = LookupOk (JStr m) ->
  let r := _getGatewayId cfg env this in
  let id := toUpperCase (remove_all colon m) in
  outcome r = Resolved id
  /\ _gatewayId (after r) = Some id
  /\ (valid_mac m = true ->
      String.length id = 12 /\ all_chars is_upper_hex id = true).
Proof.
  intros Hc Hm r id. subst r.
  rewrite (getGatewayId_uncached cfg env this Hc), Hm.
  repeat split; try reflexivity; now apply valid_mac_identity.
Qed.

(** C7, as amended. After a call that resolved with a non-empty
    identity, every later call resolves with that identity, asks nothing
    of the outside world and leaves the builder as it is.  A call that
    fails leaves the builder as it was, with no identity cached, and the
    next call performs the hardware lookup. *)
Theorem C7_cache_of_nonempty_identity (env : Env) (this : ConfigBuilder) :
  let r := _getGatewayId cfg env this in
  (forall id, outcome r = Resolved id -> id <> "" ->
     forall envs,
       repeatedly (_getGatewayId cfg) envs (after r)
       = (map (fun _ => (Resolved id, [])) envs, after r))
  /\ (forall e, outcome r = Rejected e ->
        after r = this
        /\ truthy_string (_gatewayId (after r)) = false
        /\ forall env',
             In (MacaddressOne (cfg_outbound_network_interface cfg))
                (trace (_getGatewayId cfg env' (after r)))).
Proof.
  intros r. split.
  - intros id Hr Hid envs.
    apply repeatedly_cached; [|assumption].
    now apply getGatewayId_resolved.
  - intros e Hr. subst r.
    destruct (truthy_string (_gatewayId this)) eqn:Hc.
    + destruct (_gatewayId this) as [id|] eqn:E; [|discriminate].
      rewrite (getGatewayId_cached cfg env this id E) in Hr
        by (destruct id; easy).
      discriminate.
    + assert (Ha : after (_getGatewayId cfg env this) = this).
      { rewrite (getGatewayId_uncached cfg env this Hc) in *.
        destruct (macaddress_one env _) as [err|[]];
          try reflexivity; discriminate. }
      rewrite Ha. repeat split; [assumption|].
      intros env'. rewrite (getGatewayId_uncached cfg env' this Hc).
      destruct (macaddress_one env' _) as [err|[]]; left; reflexivity.
Qed.

End IdentityClaims.

Lemma C3_identity_is_normalized_mac_witness :
  let env := Sample.host (LookupOk (JStr "aa:bb:cc:dd:ee:ff")) "" [] [] in
  let r := _getGatewayId Sample.config env Sample.builder in
  outcome r = Resolved "AABBCCDDEEFF"
  /\ _gatewayId (after r) = Some "AABBCCDDEEFF"
  /\ String.length "AABBCCDDEEFF" = 12.
Proof.
  destruct (C3_identity_is_normalized_mac Sample.config
              (Sample.host (LookupOk (JStr "aa:bb:cc:dd:ee:ff")) "" [] [])
              Sample.builder "aa:bb:cc:dd:ee:ff" eq_refl eq_refl)
    as (H1 & H2 & H3).
  split; [exact H1 | split; [exact H2 | exact (proj1 (H3 eq_refl))]].
Defined.

(** The claim C7 as it is stated fails for an interface without a hardware
    address: the lookup answers the empty string, the call resolves with
    the empty identity, and the next call asks the hardware again. *)
Lemma C7_empty_identity_is_looked_up_again :
  let env := Sample.host (LookupOk (JStr "")) "" [] [] in
  let r := _getGatewayId Sample.config env Sample.builder in
  outcome r = Resolved ""
  /\ trace (_getGatewayId Sample.config env (after r))
     = [MacaddressOne (JStr "eth0")].
Proof. split; reflexivity. Qed.

Lemma C7_cache_of_nonempty_identity_witness :
  let up := Sample.host (LookupOk (JStr "aa:bb:cc:dd:ee:ff")) "" [] [] in
  let down := Sample.host (LookupError "ENODEV") "" [] [] in
  let r := _getGatewayId Sample.config up Sample.builder in
  repeatedly (_getGatewayId Sample.config)
    [down; up; down] (after r)
  = ([(Resolved "AABBCCDDEEFF", []); (Resolved "AABBCCDDEEFF", []);
      (Resolved "AABBCCDDEEFF", [])], after r).
Proof.
  exact (proj1 (C7_cache_of_nonempty_identity Sample.config
                  (Sample.host (LookupOk (JStr "aa:bb:cc:dd:ee:ff")) "" [] [])
                  Sample.builder)
           "AABBCCDDEEFF" eq_refl ltac:(discriminate)
           [Sample.host (LookupError "ENODEV") "" [] [];
            Sample.host (LookupOk (JStr "aa:bb:cc:dd:ee:ff")) "" [] [];
            Sample.host (LookupError "ENODEV") "" [] []]).
Defined.

(* ===================================================================== *)
(** ** The constructor and the path resolver *)
(* ===================================================================== *)

Section Construction.

Context {node : Node}.
Variable cfg : Config.

Lemma new_ConfigBuilder_constructed logger this :
  fst (new_ConfigBuilder cfg logger) = inr this ->
  constructed cfg this /\ _gatewayId this = None.
Proof.
  unfold new_ConfigBuilder, constructed.
  destruct (negb (truthy_arg logger)
            || negb (jstype_eqb (typeof_arg logger) TObject));
    [discriminate|].
  destruct (cfg_local_network_gateway cfg) as [| |b|n|address|l|l];
    try (destruct logger; discriminate).
  destruct address as [|c address]; cbn [String.length Nat.leb].
  - destruct logger; discriminate.
  - intros H. injection H as <-. cbn. repeat split; congruence.
Qed.

(** C9. The constructor throws when the logger is missing or is not an
    object, and when the configured gateway address is missing, is not a
    string, or is the empty string; an instance is returned only for a
    logger that is an object and an address that is a non-empty
    string. *)
Theorem C9_constructor_validates (logger : argument) :
  let r := fst (new_ConfigBuilder cfg logger) in
  ((logger = Data JUndefined \/ typeof_arg logger <> TObject) ->
     r = inl InvalidLogger)
  /\ ((typeof (cfg_local_network_gateway cfg) <> TString
       \/ cfg_local_network_gateway cfg = JStr "") ->
      exists e, r = inl e)
  /\ (forall this, r = inr this ->
        truthy_arg logger = true /\ typeof_arg logger = TObject
        /\ exists address,
             cfg_local_network_gateway cfg = JStr address
             /\ address <> ""
             /\ _localNetworkGatewayIP this = address).
Proof.
  cbv zeta. unfold new_ConfigBuilder. split; [|split].
  - intros Hl.
    assert (negb (truthy_arg logger)
            || negb (jstype_eqb (typeof_arg logger) TObject) = true) as ->;
      [|reflexivity].
    destruct Hl as [-> | Ht]; [reflexivity|].
    destruct (typeof_arg logger); try apply orb_true_r; congruence.
  - intros Hg.
    destruct (negb (truthy_arg logger)
              || negb (jstype_eqb (typeof_arg logger) TObject));
      [now eexists|].
    destruct (cfg_local_network_gateway cfg) as [| |b|n|address|l|l];
      try (destruct logger; now eexists).
    destruct Hg as [Hg | Hg]; [now cbn in Hg|].
    injection Hg as ->. destruct logger; now eexists.
  - intros this.
    destruct (negb (truthy_arg logger)
              || negb (jstype_eqb (typeof_arg logger) TObject)) eqn:Hl;
      [discriminate|].
    apply orb_false_elim in Hl as [Ht Ho].
    apply negb_false_iff in Ht, Ho.
    destruct (cfg_local_network_gateway cfg) as [| |b|n|address|l|l];
      try (destruct logger; discriminate).
    destruct address as [|c address]; cbn [String.length Nat.leb].
    + destruct logger; discriminate.
    + intros H. injection H as <-. split; [assumption|]. split.
      * destruct (typeof_arg logger); now try discriminate.
      * eexists. repeat split. discriminate.
Qed.

(** The resolver in closed form. *)
Lemma getConfigPath_eq target this :
  _getConfigPath cfg target this = path_or_null cfg target this.
Proof.
  unfold _getConfigPath, path_or_null. unfold_action.
  destruct (CONFIG_PATHS cfg target) as [info|]; [|reflexivity].
  destruct (truthy_string (for_platform info (_platform this)));
    reflexivity.
Qed.

(** C8. The resolver returns [null] for a target that is not a key of
    the table, for a platform the table has no entry for, and for an
    entry that is not defined; otherwise it returns the entry itself, in
    particular the literal path of hostapd on linux.  It leaves the
    builder as it is and asks nothing of the file system: all it does
    besides is log the error. *)
Theorem C8_path_resolution (this : ConfigBuilder) (target : string) :
  let r := _getConfigPath cfg target this in
  (known_target target = false -> outcome r = None)
  /\ (supported (_platform this) = false -> outcome r = None)
  /\ (forall info, CONFIG_PATHS cfg target = Some info ->
        truthy_string (for_platform info (_platform this)) = false ->
        outcome r = None)
  /\ (forall info path, CONFIG_PATHS cfg target = Some info ->
        for_platform info (_platform this) = Some path -> path <> "" ->
        outcome r = Some path)
  /\ (target = "hostapd_conf" -> _platform this = linux ->
      outcome r = Some "/etc/hostapd/hostapd.conf")
  /\ (target = "hostapd_conf" -> _platform this = darwin ->
      path_resolve "./.tmp/hostapd.conf" <> "" ->
      outcome r = Some (path_resolve "./.tmp/hostapd.conf"))
  /\ (target = "gateway_agent_conf" -> supported (_platform this) = true ->
      forall path, cfg_config_file cfg = Some path -> path <> "" ->
      outcome r = Some path)
  /\ after r = this
  /\ forallb is_error_log (trace r) = true
  /\ filter is_fs (trace r) = [].
Proof.
  cbv zeta. rewrite getConfigPath_eq.
  assert (Hgen : forall info path,
             CONFIG_PATHS cfg target = Some info ->
             for_platform info (_platform this) = Some path -> path <> "" ->
             outcome (path_or_null cfg target this) = Some path).
  { unfold path_or_null. intros info path -> Hp Hne. rewrite Hp.
    destruct path; [congruence | reflexivity]. }
  split; [|split; [|split; [|split; [|split; [|split; [|split]]]]]].
  - unfold path_or_null, known_target, CONFIG_PATHS. intros Hk.
    apply orb_false_elim in Hk as [-> ->].
    destruct (Object_prototype_has target); reflexivity.
  - unfold path_or_null. intros Hs.
    destruct (CONFIG_PATHS cfg target) as [info|]; [|reflexivity].
    assert (for_platform info (_platform this) = None) as ->
        by (destruct info, (_platform this); easy).
    reflexivity.
  - unfold path_or_null. intros info -> ->. reflexivity.
  - exact Hgen.
  - intros -> Hp. apply (Hgen _ _ eq_refl); [now rewrite Hp | discriminate].
  - intros -> Hp Hne.
    apply (Hgen _ _ eq_refl); [now rewrite Hp | assumption].
  - intros -> Hs path Hc Hne. apply (Hgen _ _ eq_refl); [|assumption].
    cbn. destruct (_platform this); try discriminate; assumption.
  - unfold path_or_null.
    destruct (CONFIG_PATHS cfg target) as [info|]; [|now repeat split].
    destruct (truthy_string (for_platform info (_platform this)));
      now repeat split.
Qed.

End Construction.

Lemma C9_constructor_validates_witness :
  fst (@new_ConfigBuilder (Sample.on linux) Sample.config (Data JUndefined))
  = inl InvalidLogger
  /\ fst (@new_ConfigBuilder (Sample.on linux) Sample.config Function_)
     = inl InvalidLogger
  /\ (exists e,
        fst (@new_ConfigBuilder (Sample.on linux)
               (Sample.with_gateway (JStr "")) Logger) = inl e)
  /\ (exists e,
        fst (@new_ConfigBuilder (Sample.on linux)
               (Sample.with_gateway JUndefined) Logger) = inl e).
Proof.
  split; [|split; [|split]].
  - apply (proj1 (@C9_constructor_validates (Sample.on linux) Sample.config
                    (Data JUndefined))).
    left; reflexivity.
  - apply (proj1 (@C9_constructor_validates (Sample.on linux) Sample.config
                    Function_)).
    right; discriminate.
  - apply (proj1 (proj2 (@C9_constructor_validates (Sample.on linux)
                           (Sample.with_gateway (JStr "")) Logger))).
    right; reflexivity.
  - apply (proj1 (proj2 (@C9_constructor_validates (Sample.on linux)
                           (Sample.with_gateway JUndefined) Logger))).
    left; discriminate.
Defined.

Lemma C8_path_resolution_witness :
  outcome (@_getConfigPath (Sample.on linux) Sample.config
             "hostapd_conf" (Sample.builder_on linux))
  = Some "/etc/hostapd/hostapd.conf"
  /\ outcome (@_getConfigPath (Sample.on darwin) Sample.config
                "hostapd_conf" (Sample.builder_on darwin))
     = Some "/opt/iot-client/.tmp/hostapd.conf"
  /\ outcome (@_getConfigPath (Sample.on linux) Sample.config
                "gateway_agent_conf" (Sample.builder_on linux))
     = Some "/etc/iot-client/gateway.json"
  /\ outcome (@_getConfigPath (Sample.on linux) Sample.config
                "dnsmasq_conf" (Sample.builder_on linux)) = None
  /\ outcome (@_getConfigPath (Sample.on win32) Sample.config
                "hostapd_conf" (Sample.builder_on win32)) = None.
Proof.
  pose proof (@C8_path_resolution (Sample.on linux) Sample.config
                (Sample.builder_on linux)) as L.
  pose proof (@C8_path_resolution (Sample.on darwin) Sample.config
                (Sample.builder_on darwin) "hostapd_conf") as D.
  pose proof (@C8_path_resolution (Sample.on win32) Sample.config
                (Sample.builder_on win32) "hostapd_conf") as W.
  cbv zeta in L, D, W.
  split; [|split; [|split; [|split]]].
  - destruct (L "hostapd_conf") as (_ & _ & _ & _ & H & _).
    apply H; reflexivity.
  - destruct D as (_ & _ & _ & _ & _ & D & _).
    apply D; [reflexivity | reflexivity | discriminate].
  - destruct (L "gateway_agent_conf") as (_ & _ & _ & _ & _ & _ & G & _).
    apply G; [reflexivity | reflexivity | reflexivity | discriminate].
  - destruct (L "dnsmasq_conf") as (U & _). apply U; reflexivity.
  - destruct W as (_ & W & _). apply W; reflexivity.
Defined.

(* ===================================================================== *)
(** ** Sequencing actions *)
(* ===================================================================== *)

Lemma outcome_bind {A B} (m : Action A) (k : A -> Action B) this :
  outcome (bind m k this) = outcome (k (outcome (m this)) (after (m this))).
Proof.
  unfold bind, outcome, after. destruct (m this) as [[a this1] t1]. simpl.
  now destruct (k a this1) as [[b this2] t2].
Qed.

Lemma after_bind {A B} (m : Action A) (k : A -> Action B) this :
  after (bind m k this) = after (k (outcome (m this)) (after (m this))).
Proof.
  unfold bind, outcome, after. destruct (m this) as [[a this1] t1]. simpl.
  now destruct (k a this1) as [[b this2] t2].
Qed.

Lemma trace_bind {A B} (m : Action A) (k : A -> Action B) this :
  trace (bind m k this)
  = (trace (m this) ++ trace (k (outcome (m this)) (after (m this))))%list.
Proof.
  unfold bind, outcome, after, trace. destruct (m this) as [[a this1] t1].
  simpl. now destruct (k a this1) as [[b this2] t2].
Qed.

Lemma action_eta {A} (r : A * ConfigBuilder * list event) :
  r = (outcome r, after r, trace r).
Proof. now destruct r as [[a this] t]. Qed.

Ltac by_parts :=
  repeat (rewrite ?outcome_bind, ?after_bind, ?trace_bind;
          cbn [ret emit log get_this return_ throw outcome after trace
               fst snd app]).

(* ===================================================================== *)
(** ** Config file I/O *)
(* ===================================================================== *)

Section FileIO.

Context {node : Node}.
Variable cfg : Config.

Lemma path_or_null_nonempty target this path :
  outcome (path_or_null cfg target this) = Some path ->
  path <> "" /\ trace (path_or_null cfg target this) = [].
Proof.
  unfold path_or_null.
  destruct (CONFIG_PATHS cfg target) as [info|]; [|discriminate].
  destruct (for_platform info (_platform this)) as [[|c p]|];
    cbn; try discriminate.
  intros H. injection H as <-. now split.
Qed.

Lemma path_or_null_after target this :
  after (path_or_null cfg target this) = this.
Proof.
  unfold path_or_null.
  destruct (CONFIG_PATHS cfg target) as [info|]; [|reflexivity].
  now destruct (truthy_string (for_platform info (_platform this))).
Qed.

(** [_ensureConfig] when the path does not resolve. *)
Lemma ensureConfig_unresolved env target this :
  outcome (_getConfigPath cfg target this) = None ->
  _ensureConfig cfg env target this
  = (Rejected NotApplicable, this, trace (_getConfigPath cfg target this)).
Proof.
  intros Hp. rewrite (action_eta (_ensureConfig cfg env target this)).
  unfold _ensureConfig. by_parts. rewrite Hp. cbn.
  rewrite getConfigPath_eq, path_or_null_after, app_nil_r. reflexivity.
Qed.

(** [_ensureConfig] when the path resolves: the stat of its directory
    decides. *)
Lemma ensureConfig_resolved env target this path :
  outcome (_getConfigPath cfg target this) = Some path ->
  _ensureConfig cfg env target this
  = match fs_stat env (path_parse_dir path) with
    | Some err =>
        (Rejected (DirectoryNotFound (path_parse_dir path) err), this,
         [Stat (path_parse_dir path);
          Log LevelError "Unable to find directory: [%s]"
            [AStr (path_parse_dir path); AReason (IoError err)]])
    | None =>
        (Resolved path, this,
         [Stat (path_parse_dir path);
          Log LevelDebug "Parent directory for file exists: [%s]"
            [AStr path]])
    end.
Proof.
  intros Hp. rewrite (action_eta (_ensureConfig cfg env target this)).
  unfold _ensureConfig. by_parts. rewrite Hp.
  rewrite getConfigPath_eq in *.
  destruct (path_or_null_nonempty _ _ _ Hp) as [Hne Ht].
  rewrite Ht, path_or_null_after.
  destruct path as [|c path]; [congruence|]. cbn [is_empty].
  by_parts.
  destruct (fs_stat env (path_parse_dir (String c path))); reflexivity.
Qed.

(** With no directory to write to, the write is not attempted and the
    promise of [_writeConfig] stays pending. *)
Lemma writeConfig_not_ensured env target data this :
  (forall path, outcome (_ensureConfig cfg env target this)
                <> Resolved path) ->
  _writeConfig cfg env target data this
  = (Pending, after (_ensureConfig cfg env target this),
     trace (_ensureConfig cfg env target this)).
Proof.
  intros Hn. rewrite (action_eta (_writeConfig cfg env target data this)).
  unfold _writeConfig. by_parts.
  destruct (outcome (_ensureConfig cfg env target this)) as [path| |];
    [now elim (Hn path)| |]; cbn; now rewrite app_nil_r.
Qed.

(** With the directory in place the file is written once, and the
    promise settles by the result of the write. *)
Lemma writeConfig_ensured env target data this path :
  outcome (_ensureConfig cfg env target this) = Resolved path ->
  _writeConfig cfg env target data this
  = (match fs_writeFile env path data with
     | Some err => Rejected (WriteFailed path err)
     | None => Resolved tt
     end,
     after (_ensureConfig cfg env target this),
     (trace (_ensureConfig cfg env target this)
      ++ [Log LevelDebug "Writing config data to file: [%s]" [AStr path];
          WriteFile path data]
      ++ match fs_writeFile env path data with
         | Some err =>
             [Log LevelError "Error writing to file: [%s]"
                [AStr path; AReason (IoError err)]]
         | None => []
         end
      ++ [Log LevelInfo "Config file written successfully: [%s]"
            [AStr path];
          Log LevelDebug "Config data: [%s]" [AStr data]])%list).
Proof.
  intros He. rewrite (action_eta (_writeConfig cfg env target data this)).
  unfold _writeConfig. by_parts. rewrite He. by_parts.
  destruct (fs_writeFile env path data); reflexivity.
Qed.

End FileIO.

Lemma no_write_not_in (t : list event) :
  filter is_write t = [] -> forall path data, ~ In (WriteFile path data) t.
Proof.
  intros Hf path data Hin.
  assert (In (WriteFile path data) (filter is_write t))
    by (apply filter_In; now split).
  rewrite Hf in *. contradiction.
Qed.

Section FileIOClaims.

Context {node : Node}.
Variable cfg : Config.

Lemma getConfigPath_no_write target this :
  filter is_write (trace (_getConfigPath cfg target this)) = [].
Proof.
  rewrite getConfigPath_eq. unfold path_or_null.
  destruct (CONFIG_PATHS cfg target) as [info|]; [|reflexivity].
  now destruct (truthy_string (for_platform info (_platform this))).
Qed.

(** C6. When the path of the target does not resolve, or the stat of
    the directory of the resolved path fails, [_writeConfig] does not
    call [writeFile]: its trace holds no write. *)
Theorem C6_no_write_without_directory (env : Env) (this : ConfigBuilder)
    (target data : string) :
  (outcome (_getConfigPath cfg target this) = None
   \/ exists path err,
        outcome (_getConfigPath cfg target this) = Some path
        /\ fs_stat env (path_parse_dir path) = Some err) ->
  let r := _writeConfig cfg env target data this in
  filter is_write (trace r) = []
  /\ (forall path' data', ~ In (WriteFile path' data') (trace r))
  /\ after r = this.
Proof.
  intros H r.
  assert (Hr : filter is_write (trace r) = [] /\ after r = this).
  { subst r. destruct H as [Hp | (path & err & Hp & Hs)].
    - rewrite writeConfig_not_ensured;
        rewrite (ensureConfig_unresolved cfg env target this Hp);
        [| discriminate].
      split; [apply getConfigPath_no_write | reflexivity].
    - rewrite writeConfig_not_ensured;
        rewrite (ensureConfig_resolved cfg env target this path Hp), Hs;
        [| discriminate].
      split; reflexivity. }
  destruct Hr as [Hw Ha].
  split; [exact Hw | split; [now apply no_write_not_in | exact Ha]].
Qed.

(** What C1 says of [_writeConfig] does not hold: when the path does not
    resolve or the directory is not there, its promise is not rejected;
    nothing settles it. *)
Lemma writeConfig_pending_without_directory env this target data :
  (outcome (_getConfigPath cfg target this) = None
   \/ exists path err,
        outcome (_getConfigPath cfg target this) = Some path
        /\ fs_stat env (path_parse_dir path) = Some err) ->
  outcome (_writeConfig cfg env target data this) = Pending.
Proof.
  intros [Hp | (path & err & Hp & Hs)].
  - rewrite writeConfig_not_ensured;
      rewrite (ensureConfig_unresolved cfg env target this Hp);
      [reflexivity | discriminate].
  - rewrite writeConfig_not_ensured;
      rewrite (ensureConfig_resolved cfg env target this path Hp), Hs;
      [reflexivity | discriminate].
Qed.

End FileIOClaims.

Lemma C6_no_write_without_directory_witness :
  filter is_write
    (trace (@_writeConfig (Sample.on linux) Sample.config
              (Sample.host (LookupOk (JStr "aa:bb:cc:dd:ee:ff")) ""
                 ["/etc/hostapd"] [])
              "hostapd_conf" "ssid=AABBCCDDEEFF" Sample.builder)) = []
  /\ filter is_write
       (trace (@_writeConfig (Sample.on win32) Sample.config
                 (Sample.host (LookupOk (JStr "aa:bb:cc:dd:ee:ff")) "" [] [])
                 "hostapd_conf" "ssid=AABBCCDDEEFF"
                 (Sample.builder_on win32))) = [].
Proof.
  split.
  - apply (@C6_no_write_without_directory (Sample.on linux) Sample.config
             (Sample.host (LookupOk (JStr "aa:bb:cc:dd:ee:ff")) ""
                ["/etc/hostapd"] [])
             Sample.builder "hostapd_conf" "ssid=AABBCCDDEEFF").
    right. exists "/etc/hostapd/hostapd.conf", "ENOENT". split; reflexivity.
  - apply (@C6_no_write_without_directory (Sample.on win32) Sample.config
             (Sample.host (LookupOk (JStr "aa:bb:cc:dd:ee:ff")) "" [] [])
             (Sample.builder_on win32) "hostapd_conf" "ssid=AABBCCDDEEFF").
    left. reflexivity.
Defined.

(** C1 fails on the code, in two places.  [generateGatewayAgentConfig]
    does not return the promise of [_writeConfig]: with a gateway file
    that cannot be written, the write fails and is logged, and the
    generator still resolves.  [_writeConfig] gives [then] no rejection
    handler: for a target with no path, and for a directory that is not
    there, its promise stays pending, and so does the promise of
    [generateHostApConfig]. *)
Theorem C1_failures_are_not_reported :
  let up := LookupOk (JStr "de:ad:00:11:22:33") in
  let readonly :=
    Sample.host up Sample.baseline_X [] ["/etc/iot-client/gateway.json"] in
  let no_directory := Sample.host up Sample.baseline_X ["/etc/hostapd"] [] in
  let r := @generateGatewayAgentConfig (Sample.on linux) Sample.config
             readonly JUndefined Sample.builder in
  outcome r = Resolved tt
  /\ In (Log LevelError "Error writing to file: [%s]"
           [AStr "/etc/iot-client/gateway.json"; AReason (IoError "EACCES")])
        (trace r)
  /\ outcome (@_writeConfig (Sample.on linux) Sample.config no_directory
                "hostapd_conf" "ssid=DEAD00112233" Sample.builder) = Pending
  /\ outcome (@_writeConfig (Sample.on linux) Sample.config no_directory
                "dnsmasq_conf" "" Sample.builder) = Pending
  /\ outcome (@generateHostApConfig (Sample.on linux) Sample.config
                no_directory JUndefined Sample.builder) = Pending.
Proof.
  cbv zeta. split; [reflexivity|]. split.
  - vm_compute. tauto.
  - repeat split; reflexivity.
Qed.

(* ===================================================================== *)
(** ** The generators *)
(* ===================================================================== *)

Lemma getGatewayId_no_write cfg env this :
  filter is_write (trace (_getGatewayId cfg env this)) = [].
Proof.
  destruct (truthy_string (_gatewayId this)) eqn:Hc.
  - destruct (_gatewayId this) as [id|] eqn:E; [|discriminate].
    now rewrite (getGatewayId_cached cfg env this id E) by (destruct id; easy).
  - rewrite (getGatewayId_uncached cfg env this Hc).
    now destruct (macaddress_one env _) as [err|[]].
Qed.

Lemma stringify_object (props : list (string * jsval)) (space : nat) :
  exists text, JSON_stringify (JObj props) space = Some text.
Proof. unfold JSON_stringify. cbn. now eexists. Qed.

(** A property whose value is [undefined] is left out of the text. *)
Lemma stringify_skips_undefined (k : string) (props : list (string * jsval))
    (space : nat) :
  JSON_stringify (JObj ((k, JUndefined) :: props)) space
  = JSON_stringify (JObj props) space.
Proof. reflexivity. Qed.

Section Generators.

Context {node : Node}.
Variable cfg : Config.

(** The path, and with it [_ensureConfig], depends on the platform of
    the builder only. *)
Lemma ensureConfig_platform env target (a b : ConfigBuilder) :
  _platform a = _platform b ->
  outcome (_ensureConfig cfg env target a)
  = outcome (_ensureConfig cfg env target b)
  /\ trace (_ensureConfig cfg env target a)
     = trace (_ensureConfig cfg env target b).
Proof.
  intros Hp.
  assert (Ho : outcome (_getConfigPath cfg target a)
               = outcome (_getConfigPath cfg target b)
               /\ trace (_getConfigPath cfg target a)
                  = trace (_getConfigPath cfg target b)).
  { rewrite !getConfigPath_eq. unfold path_or_null. rewrite Hp.
    destruct (CONFIG_PATHS cfg target) as [info|]; [|now split].
    now destruct (truthy_string (for_platform info (_platform b))). }
  destruct Ho as [Ho Ht].
  destruct (outcome (_getConfigPath cfg target b)) as [path|] eqn:Eb.
  - rewrite (ensureConfig_resolved cfg env target a path Ho),
      (ensureConfig_resolved cfg env target b path Eb).
    now destruct (fs_stat env (path_parse_dir path)).
  - rewrite (ensureConfig_unresolved cfg env target a Ho),
      (ensureConfig_unresolved cfg env target b Eb).
    now split.
Qed.

(** The writes of [_writeConfig]: none, or the one of the data. *)
Lemma writeConfig_writes env target data this :
  filter is_write (trace (_writeConfig cfg env target data this))
  = match outcome (_ensureConfig cfg env target this) with
    | Resolved path => [WriteFile path data]
    | _ => []
    end.
Proof.
  destruct (outcome (_ensureConfig cfg env target this)) as [path| |] eqn:E.
  - rewrite (writeConfig_ensured cfg env target data this path E).
    cbn [trace snd]. rewrite !filter_app.
    assert (filter is_write (trace (_ensureConfig cfg env target this)) = [])
      as ->.
    { destruct (outcome (_getConfigPath cfg target this)) as [p|] eqn:Ep.
      - rewrite (ensureConfig_resolved cfg env target this p Ep).
        now destruct (fs_stat env (path_parse_dir p)).
      - rewrite (ensureConfig_unresolved cfg env target this Ep).
        apply getConfigPath_no_write. }
    now destruct (fs_writeFile env path data).
  - rewrite writeConfig_not_ensured by (rewrite E; discriminate).
    cbn [trace snd].
    destruct (outcome (_getConfigPath cfg target this)) as [p|] eqn:Ep.
    + rewrite (ensureConfig_resolved cfg env target this p Ep).
      now destruct (fs_stat env (path_parse_dir p)).
    + rewrite (ensureConfig_unresolved cfg env target this Ep).
      apply getConfigPath_no_write.
  - rewrite writeConfig_not_ensured by (rewrite E; discriminate).
    cbn [trace snd].
    destruct (outcome (_getConfigPath cfg target this)) as [p|] eqn:Ep.
    + rewrite (ensureConfig_resolved cfg env target this p Ep).
      now destruct (fs_stat env (path_parse_dir p)).
    + rewrite (ensureConfig_unresolved cfg env target this Ep).
      apply getConfigPath_no_write.
Qed.

(** The host AP generator, once the identity is resolved: it settles as
    [_writeConfig] does, and writes what [_writeConfig] writes. *)
Lemma generateHostApConfig_resolved env requestId this ID :
  outcome (_getGatewayId cfg env this) = Resolved ID ->
  let w := _writeConfig cfg env "hostapd_conf" (join LF (hostApConfig ID))
             (after (_getGatewayId cfg env this)) in
  outcome (generateHostApConfig cfg env requestId this)
  = match outcome w with
    | Resolved _ => Resolved tt
    | Rejected e => Rejected e
    | Pending => Pending
    end
  /\ filter is_write (trace (generateHostApConfig cfg env requestId this))
     = filter is_write (trace w).
Proof.
  intros Hid w. unfold generateHostApConfig, then_else, then_.
  by_parts. rewrite Hid. by_parts. fold w. split.
  - destruct (outcome w); by_parts; reflexivity.
  - cbn [filter is_write]. rewrite !filter_app, getGatewayId_no_write.
    destruct (outcome w); by_parts; cbn; now rewrite ?app_nil_r.
Qed.

End Generators.

Section HostApClaims.

Context {node : Node}.
Variable cfg : Config.

(** C2, as amended. With the identity [ID] resolved, the only data the
    generator hands to [writeFile] is the thirteen lines below joined by
    line feeds, and it is written once when the directory of the target
    is there.  The lines are in this order; two of them are blank: the
    second and the sixth.  For an identity without a line feed the text
    has exactly these lines. *)
Theorem C2_hostapd_text_has_two_blank_lines (env : Env)
    (this : ConfigBuilder) (requestId : jsval) (ID : string) :
  outcome (_getGatewayId cfg env this) = Resolved ID ->
  let r := generateHostApConfig cfg env requestId this in
  let config :=
    [ "interface=wlan0"; "";
      "ssid=" ++ ID; "wpa_passphrase=" ++ toLowerCase ID;
      "channel=6"; "";
      "wmm_enabled=1"; "wpa=1"; "wpa_key_mgmt=WPA-PSK";
      "wpa_pairwise=TKIP"; "rsn_pairwise=CCMP";
      "macaddr_acl=0"; "auth_algs=1" ] in
  let text := join LF config in
  (forall path data, In (WriteFile path data) (trace r) -> data = text)
  /\ (forall path,
        outcome (_ensureConfig cfg env "hostapd_conf" this) = Resolved path ->
        filter is_write (trace r) = [WriteFile path text])
  /\ List.length config = 13
  /\ blank_lines config = 2
  /\ nth_error config 1 = Some "" /\ nth_error config 5 = Some ""
  /\ (contains_char newline ID = false -> lines text = config).
Proof.
  intros Hid r config text.
  destruct (generateHostApConfig_resolved cfg env requestId this ID Hid)
    as [_ Hw].
  rewrite writeConfig_writes in Hw.
  destruct (getGatewayId_keeps cfg env this) as [Hp _].
  destruct (ensureConfig_platform cfg env "hostapd_conf" _ _ Hp) as [Ho _].
  rewrite Ho in Hw. change (join LF (hostApConfig ID)) with text in Hw.
  fold r in Hw.
  split; [|split; [|repeat split]].
  - intros path data Hin.
    assert (Hf : In (WriteFile path data) (filter is_write (trace r)))
      by (apply filter_In; now split).
    rewrite Hw in Hf.
    destruct (outcome (_ensureConfig cfg env "hostapd_conf" this));
      try contradiction.
    destruct Hf as [Hf | []]. injection Hf as _ <-. reflexivity.
  - intros path He. now rewrite Hw, He.
  - intros Hn. unfold lines, text, LF. apply split_join; [discriminate|].
    assert (H1 : contains_char newline ("ssid=" ++ ID) = false)
      by (now rewrite contains_char_append, Hn).
    assert (H2 : contains_char newline
                   ("wpa_passphrase=" ++ toLowerCase ID) = false)
      by (now rewrite contains_char_append, contains_newline_toLowerCase,
            Hn).
    subst config. cbn [forallb]. rewrite H1, H2. reflexivity.
Qed.

End HostApClaims.

Lemma C2_hostapd_text_has_two_blank_lines_witness :
  let env := Sample.host (LookupOk (JStr "aa:bb:cc:dd:ee:ff")) "" [] [] in
  let r := @generateHostApConfig (Sample.on linux) Sample.config env
             JUndefined Sample.builder in
  filter is_write (trace r)
  = [WriteFile "/etc/hostapd/hostapd.conf"
       (join LF
          [ "interface=wlan0"; "";
            "ssid=AABBCCDDEEFF"; "wpa_passphrase=aabbccddeeff";
            "channel=6"; "";
            "wmm_enabled=1"; "wpa=1"; "wpa_key_mgmt=WPA-PSK";
            "wpa_pairwise=TKIP"; "rsn_pairwise=CCMP";
            "macaddr_acl=0"; "auth_algs=1" ])].
Proof.
  destruct (@C2_hostapd_text_has_two_blank_lines (Sample.on linux)
              Sample.config
              (Sample.host (LookupOk (JStr "aa:bb:cc:dd:ee:ff")) "" [] [])
              Sample.builder JUndefined "AABBCCDDEEFF" eq_refl)
    as (_ & H & _).
  exact (H "/etc/hostapd/hostapd.conf" eq_refl).
Defined.

(** The claim C2 as it is stated fails: for the identity AABBCCDDEEFF the
    text written has thirteen lines, and two of them are blank, not one. *)
Lemma C2_one_blank_line_counterexample :
  let env := Sample.host (LookupOk (JStr "aa:bb:cc:dd:ee:ff")) "" [] [] in
  let r := @generateHostApConfig (Sample.on linux) Sample.config env
             JUndefined Sample.builder in
  exists text,
    outcome (_getGatewayId Sample.config env Sample.builder)
    = Resolved "AABBCCDDEEFF"
    /\ filter is_write (trace r)
       = [WriteFile "/etc/hostapd/hostapd.conf" text]
    /\ List.length (lines text) = 13
    /\ blank_lines (lines text) = 2
    /\ blank_lines (lines text) <> 1.
Proof.
  cbv zeta. eexists. split; [reflexivity|]. split; [reflexivity|].
  split; [reflexivity|]. split; [reflexivity|]. vm_compute. discriminate.
Qed.

Section GatewayAgent.

Context {node : Node}.
Variable cfg : Config.

Abbreviation baseline := (cfg_baseline_config_file cfg).

(** Reading and parsing: the builder is left as it is, nothing is
    written, and a read error and a parse error are told apart. *)
Lemma readExistingConfig_parts env path this :
  let r := _readExistingConfig env path true this in
  after r = this
  /\ filter is_write (trace r) = []
  /\ outcome r = match fs_readFile env path with
                 | inl err => Rejected (IoError err)
                 | inr data =>
                     match JSON_parse data with
                     | Some config => Resolved config
                     | None => Rejected SyntaxError
                     end
                 end.
Proof.
  cbv zeta. unfold _readExistingConfig. by_parts.
  destruct (fs_readFile env path) as [err|data]; by_parts;
    [now repeat split|].
  destruct (JSON_parse data); by_parts; now repeat split.
Qed.

(** The generator when the identity is not resolved. *)
Lemma generateGatewayAgentConfig_no_identity env requestId this e :
  outcome (_getGatewayId cfg env this) = Rejected e ->
  let r := generateGatewayAgentConfig cfg env requestId this in
  outcome r = Rejected e /\ filter is_write (trace r) = [].
Proof.
  intros Hid. cbv zeta.
  unfold generateGatewayAgentConfig, then_else, then_.
  by_parts. rewrite Hid. by_parts.
  split; [reflexivity|].
  cbn [filter is_write]. rewrite !filter_app, getGatewayId_no_write.
  reflexivity.
Qed.

(** The generator when the baseline cannot be read or parsed. *)
Lemma generateGatewayAgentConfig_no_baseline env requestId this ID e :
  outcome (_getGatewayId cfg env this) = Resolved ID ->
  outcome (_readExistingConfig env baseline true
             (after (_getGatewayId cfg env this))) = Rejected e ->
  let r := generateGatewayAgentConfig cfg env requestId this in
  outcome r = Rejected e /\ filter is_write (trace r) = [].
Proof.
  intros Hid Hrd. cbv zeta.
  unfold generateGatewayAgentConfig, then_else, then_.
  by_parts. rewrite Hid. by_parts.  rewrite Hrd. by_parts.
  split; [reflexivity|].
  cbn [filter is_write]. rewrite !filter_app, getGatewayId_no_write.
  destruct (readExistingConfig_parts env baseline
              (after (_getGatewayId cfg env this))) as (_ & -> & _).
  reflexivity.
Qed.

(** The generator when the baseline is parsed and has a value for
    [connectorTypes] (possibly [undefined]): it resolves, whatever
    becomes of the write, and writes what [_writeConfig] writes. *)
Lemma generateGatewayAgentConfig_parsed env requestId this ID config
    connectorTypes payload :
  outcome (_getGatewayId cfg env this) = Resolved ID ->
  outcome (_readExistingConfig env baseline true
             (after (_getGatewayId cfg env this))) = Resolved config ->
  get_prop config "connectorTypes" = Some connectorTypes ->
  JSON_stringify
    (newConfig cfg (after (_getGatewayId cfg env this)) ID connectorTypes) 4
  = Some payload ->
  let r := generateGatewayAgentConfig cfg env requestId this in
  outcome r = Resolved tt
  /\ filter is_write (trace r)
     = filter is_write
         (trace (_writeConfig cfg env "gateway_agent_conf" payload
                   (after (_getGatewayId cfg env this)))).
Proof.
  intros Hid Hrd Hct Hjs. cbv zeta.
  destruct (readExistingConfig_parts env baseline
              (after (_getGatewayId cfg env this))) as (Ha & Hw & _).
  unfold generateGatewayAgentConfig, then_else, then_.
  by_parts. rewrite Hid. by_parts.  rewrite Hrd. by_parts.
  rewrite Hct. by_parts. rewrite Ha, Hjs. by_parts.
  split; [reflexivity|].
  cbn [filter is_write].
  rewrite !filter_app, getGatewayId_no_write, Hw. cbn.
  now rewrite !app_nil_r.
Qed.

End GatewayAgent.

Section GatewayAgentClaims.

Context {node : Node}.
Variable cfg : Config.

Abbreviation baseline := (cfg_baseline_config_file cfg).

Lemma writes_of_gateway_agent env this ID payload
    (r : promise unit * ConfigBuilder * list event) :
  filter is_write (trace r)
  = filter is_write
      (trace (_writeConfig cfg env "gateway_agent_conf" payload
                (after (_getGatewayId cfg env this)))) ->
  outcome (_getGatewayId cfg env this) = Resolved ID ->
  (forall path data, In (WriteFile path data) (trace r) -> data = payload)
  /\ (forall path,
        outcome (_ensureConfig cfg env "gateway_agent_conf" this)
        = Resolved path ->
        filter is_write (trace r) = [WriteFile path payload]).
Proof.
  intros Hw Hid. rewrite writeConfig_writes in Hw.
  destruct (getGatewayId_keeps cfg env this) as [Hp _].
  destruct (ensureConfig_platform cfg env "gateway_agent_conf" _ _ Hp)
    as [Ho _].
  rewrite Ho in Hw. split.
  - intros path data Hin.
    assert (Hf : In (WriteFile path data) (filter is_write (trace r)))
      by (apply filter_In; now split).
    rewrite Hw in Hf.
    destruct (outcome (_ensureConfig cfg env "gateway_agent_conf" this));
      try contradiction.
    destruct Hf as [Hf | []]. now injection Hf as _ <-.
  - intros path He. now rewrite Hw, He.
Qed.

(** C4. With the identity [ID] resolved and a baseline that parses to an
    object whose [connectorTypes] is [ct], what the generator hands to
    [writeFile] is [JSON.stringify(document, null, 4)], where
    [document] has the [connectorTypes] of the baseline, one device
    connector [ID-cnc-gateway] with an empty configuration, and one cloud
    connector [ID-cnc-cloud] configured with the gateway address, port
    1883, protocol mqtt, [ID] as account and gateway name, the local
    network interface and empty topics.  It is written once when the
    directory of the target is there. *)
Theorem C4_gateway_agent_document (env : Env) (this : ConfigBuilder)
    (requestId : jsval) (ID data : string)
    (props : list (string * jsval)) (ct : jsval) :
  constructed cfg this ->
  outcome (_getGatewayId cfg env this) = Resolved ID ->
  fs_readFile env (cfg_baseline_config_file cfg) = inr data ->
  JSON_parse data = Some (JObj props) ->
  assoc "connectorTypes" props = Some ct ->
  let r := generateGatewayAgentConfig cfg env requestId this in
  let document :=
    JObj
      [ ("connectorTypes", ct);
        ("deviceConnectors",
          JObj [ (ID ++ "-cnc-gateway",
                   JObj [ ("type", JStr "CncGateway");
                          ("config", JObj []) ]) ]);
        ("cloudConnectors",
          JObj [ (ID ++ "-cnc-cloud",
                   JObj [ ("type", JStr "CncCloud");
                          ("config",
                            JObj [ ("host", cfg_local_network_gateway cfg);
                                   ("port", JNum 1883);
                                   ("protocol", JStr "mqtt");
                                   ("account", JStr ID);
                                   ("networkInterface",
                                     cfg_local_network_interface cfg);
                                   ("gatewayname", JStr ID);
                                   ("topics", JStr "") ]) ]) ]) ] in
  exists payload,
    JSON_stringify document 4 = Some payload
    /\ (forall path data', In (WriteFile path data') (trace r) ->
                           data' = payload)
    /\ (forall path,
          outcome (_ensureConfig cfg env "gateway_agent_conf" this)
          = Resolved path ->
          filter is_write (trace r) = [WriteFile path payload]).
Proof.
  intros (_ & Hgw & _) Hid Hread Hparse Hct r document.
  destruct (stringify_object
              [ ("connectorTypes", ct);
                ("deviceConnectors",
                  JObj [ (ID ++ "-cnc-gateway",
                           JObj [ ("type", JStr "CncGateway");
                                  ("config", JObj []) ]) ]);
                ("cloudConnectors",
                  JObj [ (ID ++ "-cnc-cloud",
                           JObj [ ("type", JStr "CncCloud");
                                  ("config",
                                    JObj [ ("host",
                                             cfg_local_network_gateway cfg);
                                           ("port", JNum 1883);
                                           ("protocol", JStr "mqtt");
                                           ("account", JStr ID);
                                           ("networkInterface",
                                             cfg_local_network_interface
                                               cfg);
                                           ("gatewayname", JStr ID);
                                           ("topics", JStr "") ]) ]) ]) ] 4)
    as [payload Hjs].
  exists payload. split; [exact Hjs|].
  destruct (getGatewayId_keeps cfg env this) as [_ Hip].
  destruct (readExistingConfig_parts env baseline
              (after (_getGatewayId cfg env this))) as (_ & _ & Hrd).
  cbv zeta in Hrd. rewrite Hread, Hparse in Hrd.
  apply (writes_of_gateway_agent env this ID payload r); [|assumption].
  apply (generateGatewayAgentConfig_parsed cfg env requestId this ID
           (JObj props) ct payload); try assumption.
  - unfold get_prop. now rewrite Hct.
  - unfold newConfig. rewrite Hip, <- Hgw. exact Hjs.
Qed.

(** C10. The generator does not check that the baseline has a
    [connectorTypes]: for a baseline that parses to an object without
    it, the generator resolves, and the text it hands to [writeFile] is
    that of a document with the keys [deviceConnectors] and
    [cloudConnectors] only. *)
Theorem C10_baseline_without_connectorTypes (env : Env)
    (this : ConfigBuilder) (requestId : jsval) (ID data : string)
    (props : list (string * jsval)) :
  constructed cfg this ->
  outcome (_getGatewayId cfg env this) = Resolved ID ->
  fs_readFile env (cfg_baseline_config_file cfg) = inr data ->
  JSON_parse data = Some (JObj props) ->
  assoc "connectorTypes" props = None ->
  let r := generateGatewayAgentConfig cfg env requestId this in
  let document :=
    JObj
      [ ("deviceConnectors",
          JObj [ (ID ++ "-cnc-gateway",
                   JObj [ ("type", JStr "CncGateway");
                          ("config", JObj []) ]) ]);
        ("cloudConnectors",
          JObj [ (ID ++ "-cnc-cloud",
                   JObj [ ("type", JStr "CncCloud");
                          ("config",
                            JObj [ ("host", cfg_local_network_gateway cfg);
                                   ("port", JNum 1883);
                                   ("protocol", JStr "mqtt");
                                   ("account", JStr ID);
                                   ("networkInterface",
                                     cfg_local_network_interface cfg);
                                   ("gatewayname", JStr ID);
                                   ("topics", JStr "") ]) ]) ]) ] in
  outcome r = Resolved tt
  /\ exists payload,
       JSON_stringify document 4 = Some payload
       /\ (forall path data', In (WriteFile path data') (trace r) ->
                              data' = payload)
       /\ (forall path,
             outcome (_ensureConfig cfg env "gateway_agent_conf" this)
             = Resolved path ->
             filter is_write (trace r) = [WriteFile path payload]).
Proof.
  intros (_ & Hgw & _) Hid Hread Hparse Hct r document.
  destruct (stringify_object
              [ ("deviceConnectors",
                  JObj [ (ID ++ "-cnc-gateway",
                           JObj [ ("type", JStr "CncGateway");
                                  ("config", JObj []) ]) ]);
                ("cloudConnectors",
                  JObj [ (ID ++ "-cnc-cloud",
                           JObj [ ("type", JStr "CncCloud");
                                  ("config",
                                    JObj [ ("host",
                                             cfg_local_network_gateway cfg);
                                           ("port", JNum 1883);
                                           ("protocol", JStr "mqtt");
                                           ("account", JStr ID);
                                           ("networkInterface",
                                             cfg_local_network_interface
                                               cfg);
                                           ("gatewayname", JStr ID);
                                           ("topics", JStr "") ]) ]) ]) ] 4)
    as [payload Hjs].
  destruct (getGatewayId_keeps cfg env this) as [_ Hip].
  destruct (readExistingConfig_parts env baseline
              (after (_getGatewayId cfg env this))) as (_ & _ & Hrd).
  cbv zeta in Hrd. rewrite Hread, Hparse in Hrd.
  destruct (generateGatewayAgentConfig_parsed cfg env requestId this ID
              (JObj props) JUndefined payload) as [Ho Hw];
    try assumption.
  - unfold get_prop. now rewrite Hct.
  - unfold newConfig. rewrite stringify_skips_undefined, Hip, <- Hgw.
    exact Hjs.
  - split; [exact Ho|]. exists payload. split; [exact Hjs|].
    now apply (writes_of_gateway_agent env this ID payload r).
Qed.

(** C5. When the content of the baseline file is not valid JSON, the
    generator is rejected and writes nothing; with the identity
    resolved, it is rejected with the SyntaxError of the parser, which
    is not the error a failed read is rejected with. *)
Theorem C5_malformed_baseline (env : Env) (this : ConfigBuilder)
    (requestId : jsval) (data : string) :
  fs_readFile env (cfg_baseline_config_file cfg) = inr data ->
  JSON_parse data = None ->
  let r := generateGatewayAgentConfig cfg env requestId this in
  filter is_write (trace r) = []
  /\ is_rejected (outcome r) = true
  /\ (forall ID, outcome (_getGatewayId cfg env this) = Resolved ID ->
                 outcome r = Rejected SyntaxError)
  /\ (forall env' ID err,
        outcome (_getGatewayId cfg env' this) = Resolved ID ->
        fs_readFile env' (cfg_baseline_config_file cfg) = inl err ->
        outcome (generateGatewayAgentConfig cfg env' requestId this)
        = Rejected (IoError err)
        /\ Rejected (A := unit) (IoError err) <> Rejected SyntaxError).
Proof.
  intros Hread Hparse r.
  assert (Hres : forall ID,
             outcome (_getGatewayId cfg env this) = Resolved ID ->
             outcome r = Rejected SyntaxError
             /\ filter is_write (trace r) = []).
  { intros ID Hid.
    apply (generateGatewayAgentConfig_no_baseline cfg env requestId this
             ID SyntaxError Hid).
    destruct (readExistingConfig_parts env baseline
                (after (_getGatewayId cfg env this))) as (_ & _ & Hrd).
    cbv zeta in Hrd.
    now rewrite Hread, Hparse in Hrd. }
  destruct (outcome (_getGatewayId cfg env this)) as [ID|e|] eqn:Hid.
  - destruct (Hres ID eq_refl) as [Ho Hw].
    split; [exact Hw|]. split; [now rewrite Ho|].
    split; [intros; exact Ho|].
    intros env' ID' err Hid' Hread'. split; [|discriminate].
    apply (generateGatewayAgentConfig_no_baseline cfg env' requestId this
             ID' (IoError err) Hid').
    destruct (readExistingConfig_parts env' baseline
                (after (_getGatewayId cfg env' this))) as (_ & _ & Hrd).
    cbv zeta in Hrd. now rewrite Hread' in Hrd.
  - destruct (generateGatewayAgentConfig_no_identity cfg env requestId
                this e Hid) as [Ho Hw].
    fold r in Ho, Hw.
    split; [exact Hw|]. split; [now rewrite Ho|].
    split; [discriminate|].
    intros env' ID' err Hid' Hread'. split; [|discriminate].
    apply (generateGatewayAgentConfig_no_baseline cfg env' requestId this
             ID' (IoError err) Hid').
    destruct (readExistingConfig_parts env' baseline
                (after (_getGatewayId cfg env' this))) as (_ & _ & Hrd).
    cbv zeta in Hrd. now rewrite Hread' in Hrd.
  - now elim (getGatewayId_never_pending cfg env this).
Qed.

End GatewayAgentClaims.

Lemma sample_constructed :
  @constructed (Sample.on linux) Sample.config Sample.builder.
Proof. split; [reflexivity | split; [reflexivity | discriminate]]. Qed.

Lemma C4_gateway_agent_document_witness :
  let env :=
    Sample.host (LookupOk (JStr "de:ad:00:11:22:33")) Sample.baseline_X [] [] in
  let r := @generateGatewayAgentConfig (Sample.on linux) Sample.config env
             JUndefined Sample.builder in
  exists payload,
    JSON_stringify
      (JObj
         [ ("connectorTypes", JArr [JStr "X"]);
           ("deviceConnectors",
             JObj [ ("DEAD00112233-cnc-gateway",
                      JObj [ ("type", JStr "CncGateway");
                             ("config", JObj []) ]) ]);
           ("cloudConnectors",
             JObj [ ("DEAD00112233-cnc-cloud",
                      JObj [ ("type", JStr "CncCloud");
                             ("config",
                               JObj [ ("host", JStr "192.168.42.1");
                                      ("port", JNum 1883);
                                      ("protocol", JStr "mqtt");
                                      ("account", JStr "DEAD00112233");
                                      ("networkInterface", JStr "wlan0");
                                      ("gatewayname", JStr "DEAD00112233");
                                      ("topics", JStr "") ]) ]) ]) ]) 4
    = Some payload
    /\ filter is_write (trace r)
       = [WriteFile "/etc/iot-client/gateway.json" payload].
Proof.
  destruct (@C4_gateway_agent_document (Sample.on linux) Sample.config
              (Sample.host (LookupOk (JStr "de:ad:00:11:22:33"))
                 Sample.baseline_X [] [])
              Sample.builder JUndefined "DEAD00112233" Sample.baseline_X
              [("connectorTypes", JArr [JStr "X"])] (JArr [JStr "X"])
              sample_constructed eq_refl eq_refl eq_refl eq_refl)
    as (payload & Hjs & _ & Hw).
  exists payload. split; [exact Hjs | exact (Hw _ eq_refl)].
Defined.

Lemma C10_baseline_without_connectorTypes_witness :
  let env :=
    Sample.host (LookupOk (JStr "de:ad:00:11:22:33"))
      Sample.baseline_no_types [] [] in
  let r := @generateGatewayAgentConfig (Sample.on linux) Sample.config env
             JUndefined Sample.builder in
  outcome r = Resolved tt
  /\ exists payload,
       JSON_stringify
         (JObj
            [ ("deviceConnectors",
                JObj [ ("DEAD00112233-cnc-gateway",
                         JObj [ ("type", JStr "CncGateway");
                                ("config", JObj []) ]) ]);
              ("cloudConnectors",
                JObj [ ("DEAD00112233-cnc-cloud",
                         JObj [ ("type", JStr "CncCloud");
                                ("config",
                                  JObj [ ("host", JStr "192.168.42.1");
                                         ("port", JNum 1883);
                                         ("protocol", JStr "mqtt");
                                         ("account", JStr "DEAD00112233");
                                         ("networkInterface", JStr "wlan0");
                                         ("gatewayname", JStr "DEAD00112233");
                                         ("topics", JStr "") ]) ]) ]) ]) 4
       = Some payload
       /\ filter is_write (trace r)
          = [WriteFile "/etc/iot-client/gateway.json" payload].
Proof.
  destruct (@C10_baseline_without_connectorTypes (Sample.on linux)
              Sample.config
              (Sample.host (LookupOk (JStr "de:ad:00:11:22:33"))
                 Sample.baseline_no_types [] [])
              Sample.builder JUndefined "DEAD00112233"
              Sample.baseline_no_types [("name", JStr "gw")]
              sample_constructed eq_refl eq_refl eq_refl eq_refl)
    as (Ho & payload & Hjs & _ & Hw).
  split; [exact Ho|].
  exists payload. split; [exact Hjs | exact (Hw _ eq_refl)].
Defined.

Lemma C5_malformed_baseline_witness :
  let env := Sample.host (LookupOk (JStr "de:ad:00:11:22:33")) "{" [] [] in
  let r := @generateGatewayAgentConfig (Sample.on linux) Sample.config env
             JUndefined Sample.builder in
  filter is_write (trace r) = [] /\ outcome r = Rejected SyntaxError.
Proof.
  destruct (@C5_malformed_baseline (Sample.on linux) Sample.config
              (Sample.host (LookupOk (JStr "de:ad:00:11:22:33")) "{" [] [])
              Sample.builder JUndefined "{" eq_refl eq_refl)
    as (Hw & _ & Ho & _).
  split; [exact Hw | exact (Ho "DEAD00112233" eq_refl)].
Defined.

(* ===================================================================== *)
(** ** What no method changes *)
(* ===================================================================== *)

Create HintDb host.

Lemma same_host_refl this : same_host this this.
Proof. now split. Qed.

Lemma same_host_trans a b c : same_host a b -> same_host b c -> same_host a c.
Proof. intros [? ?] [? ?]. split; congruence. Qed.

Lemma keeps_ret {A} (a : A) : keeps_host (ret a).
Proof. intros this. apply same_host_refl. Qed.

Lemma keeps_emit e : keeps_host (emit e).
Proof. intros this. apply same_host_refl. Qed.

Lemma keeps_log lvl format args : keeps_host (log lvl format args).
Proof. intros this. apply same_host_refl. Qed.

Lemma keeps_get_this : keeps_host get_this.
Proof. intros this. apply same_host_refl. Qed.

Lemma keeps_set_gatewayId id : keeps_host (set_gatewayId id).
Proof. intros this. now split. Qed.

Lemma keeps_bind {A B} (m : Action A) (k : A -> Action B) :
  keeps_host m -> (forall a, keeps_host (k a)) -> keeps_host (bind m k).
Proof.
  intros Hm Hk this. rewrite after_bind.
  eapply same_host_trans; [apply Hk | apply Hm].
Qed.

Lemma keeps_then {A B} (p : Action (promise A)) (f : A -> Action (promise B)) :
  keeps_host p -> (forall a, keeps_host (f a)) -> keeps_host (then_ p f).
Proof.
  intros Hp Hf. apply keeps_bind; [assumption|].
  intros [v|r|]; [apply Hf | apply keeps_ret | apply keeps_ret].
Qed.

Lemma keeps_then_else {A B} (p : Action (promise A))
    (f : A -> Action (promise B)) (g : reason -> Action (promise B)) :
  keeps_host p -> (forall a, keeps_host (f a)) ->
  (forall r, keeps_host (g r)) -> keeps_host (then_else p f g).
Proof.
  intros Hp Hf Hg. apply keeps_bind; [assumption|].
  intros [v|r|]; [apply Hf | apply Hg | apply keeps_ret].
Qed.

#[local] Hint Resolve keeps_ret keeps_emit keeps_log keeps_get_this
  keeps_set_gatewayId : host.
#[local] Hint Extern 2 (keeps_host (bind _ _)) =>
  apply keeps_bind; [|intro] : host.
#[local] Hint Extern 2 (keeps_host (then_ _ _)) =>
  apply keeps_then; [|intro] : host.
#[local] Hint Extern 2 (keeps_host (then_else _ _ _)) =>
  apply keeps_then_else; [|intro|intro] : host.
#[local] Hint Extern 1 (keeps_host (return_ _)) => apply keeps_ret : host.
#[local] Hint Extern 1 (keeps_host (throw _)) => apply keeps_ret : host.
#[local] Hint Extern 4 (keeps_host (match ?x with _ => _ end)) =>
  destruct x : host.
#[local] Hint Extern 4 (keeps_host (if ?x then _ else _)) =>
  destruct x : host.

Section Invariant.

Context {node : Node}.
Variable cfg : Config.

Lemma keeps_getGatewayId env : keeps_host (_getGatewayId cfg env).
Proof. intros this. split; apply getGatewayId_keeps. Qed.

Lemma keeps_getConfigPath target : keeps_host (_getConfigPath cfg target).
Proof. unfold _getConfigPath. auto 10 with host. Qed.

Lemma keeps_readExistingConfig env path parse :
  keeps_host (_readExistingConfig env path parse).
Proof. unfold _readExistingConfig. auto 10 with host. Qed.

Lemma keeps_ensureConfig env target : keeps_host (_ensureConfig cfg env target).
Proof.
  unfold _ensureConfig. apply keeps_bind; [apply keeps_getConfigPath|].
  intros path. auto 10 with host.
Qed.

Lemma keeps_writeConfig env target data :
  keeps_host (_writeConfig cfg env target data).
Proof.
  unfold _writeConfig. apply keeps_bind; [apply keeps_ensureConfig|].
  intros ensured. auto 12 with host.
Qed.

Lemma keeps_generateHostApConfig env requestId :
  keeps_host (generateHostApConfig cfg env requestId).
Proof.
  unfold generateHostApConfig.
  apply keeps_bind; [apply keeps_log | intros _].
  apply keeps_then_else; [|auto with host..].
  apply keeps_then; [apply keeps_getGatewayId|].
  intros gatewayId. apply keeps_writeConfig.
Qed.

Lemma keeps_generateGatewayAgentConfig env requestId :
  keeps_host (generateGatewayAgentConfig cfg env requestId).
Proof.
  unfold generateGatewayAgentConfig.
  apply keeps_bind; [apply keeps_log | intros _].
  apply keeps_then_else; [|auto with host..].
  apply keeps_then; [apply keeps_getGatewayId|].
  intros id. apply keeps_then.
  - apply keeps_then; [apply keeps_readExistingConfig|].
    intros config. auto 10 with host.
  - intros config. destruct (JSON_stringify config 4); [|auto with host].
    apply keeps_bind; [apply keeps_writeConfig | auto with host].
Qed.

(** A builder the constructor returned stays one under every method. *)
Lemma constructed_kept {A} (m : Action A) this :
  keeps_host m -> constructed cfg this -> constructed cfg (after (m this)).
Proof.
  intros Hm (Hp & Hg & Hne). destruct (Hm this) as [Hp' Hip].
  unfold constructed. rewrite Hp', Hip. now repeat split.
Qed.

End Invariant.

(* ===================================================================== *)
(** ** The write failure in the two generators *)
(* ===================================================================== *)

Section WriteFailure.

Context {node : Node}.
Variable cfg : Config.

(** [generateHostApConfig] returns the promise of [_writeConfig]: when the
    directory is there and the write fails, the generator is rejected with
    the failure of the write. *)
Theorem hostap_write_failure_is_rejected (env : Env) (this : ConfigBuilder)
    (requestId : jsval) (ID path : string) (err : ioerr) :
  outcome (_getGatewayId cfg env this) = Resolved ID ->
  outcome (_ensureConfig cfg env "hostapd_conf" this) = Resolved path ->
  fs_writeFile env path (join LF (hostApConfig ID)) = Some err ->
  outcome (generateHostApConfig cfg env requestId this)
  = Rejected (WriteFailed path err).
Proof.
  intros Hid He Hw.
  destruct (generateHostApConfig_resolved cfg env requestId this ID Hid)
    as [-> _].
  destruct (getGatewayId_keeps cfg env this) as [Hp _].
  destruct (ensureConfig_platform cfg env "hostapd_conf" _ _ Hp) as [Ho _].
  rewrite He in Ho.
  rewrite (writeConfig_ensured cfg env "hostapd_conf" _ _ path Ho), Hw.
  reflexivity.
Qed.

End WriteFailure.

Lemma hostap_write_failure_is_rejected_witness :
  outcome (@generateHostApConfig (Sample.on linux) Sample.config
             (Sample.host (LookupOk (JStr "de:ad:00:11:22:33"))
                Sample.baseline_X [] ["/etc/hostapd/hostapd.conf"])
             JUndefined Sample.builder)
  = Rejected (WriteFailed "/etc/hostapd/hostapd.conf" "EACCES").
Proof.
  exact (@hostap_write_failure_is_rejected (Sample.on linux) Sample.config
           (Sample.host (LookupOk (JStr "de:ad:00:11:22:33"))
              Sample.baseline_X [] ["/etc/hostapd/hostapd.conf"])
           Sample.builder JUndefined "DEAD00112233"
           "/etc/hostapd/hostapd.conf" "EACCES" eq_refl eq_refl eq_refl).
Defined.

(* ===================================================================== *)
(** ** Config file I/O, in full *)
(* ===================================================================== *)

Section FileIOInFull.

Context {node : Node}.
Variable cfg : Config.

Lemma getConfigPath_after target this :
  after (_getConfigPath cfg target this) = this.
Proof. rewrite getConfigPath_eq. apply path_or_null_after. Qed.

Lemma getConfigPath_no_fs target this :
  filter is_fs (trace (_getConfigPath cfg target this)) = [].
Proof.
  rewrite getConfigPath_eq. unfold path_or_null.
  destruct (CONFIG_PATHS cfg target) as [info|]; [|reflexivity].
  now destruct (truthy_string (for_platform info (_platform this))).
Qed.

(** [_ensureConfig] always settles and leaves the builder as it is.  For
    a target with no path it is rejected at once: nothing is asked of the
    file system.  For a target with a path the one thing asked is the stat
    of the directory of the path, and its answer decides. *)
Theorem ensureConfig_stats_once (env : Env) (this : ConfigBuilder)
    (target : string) :
  let r := _ensureConfig cfg env target this in
  after r = this
  /\ outcome r <> Pending
  /\ (outcome (_getConfigPath cfg target this) = None ->
      outcome r = Rejected NotApplicable /\ filter is_fs (trace r) = [])
  /\ (forall path,
        outcome (_getConfigPath cfg target this) = Some path ->
        filter is_fs (trace r) = [Stat (path_parse_dir path)]
        /\ (forall err, fs_stat env (path_parse_dir path) = Some err ->
              outcome r = Rejected (DirectoryNotFound (path_parse_dir path) err))
        /\ (fs_stat env (path_parse_dir path) = None ->
            outcome r = Resolved path)).
Proof.
  cbv zeta.
  destruct (outcome (_getConfigPath cfg target this)) as [path|] eqn:Hp.
  - rewrite (ensureConfig_resolved cfg env target this path Hp).
    destruct (fs_stat env (path_parse_dir path)) as [err|] eqn:Hs.
    + split; [reflexivity|]. split; [discriminate|].
      split; [discriminate|].
      intros path' E. injection E as <-. rewrite Hs.
      split; [reflexivity|]. split; [|discriminate].
      intros err' E. now injection E as <-.
    + split; [reflexivity|]. split; [discriminate|].
      split; [discriminate|].
      intros path' E. injection E as <-. rewrite Hs.
      split; [reflexivity|]. split; [discriminate | reflexivity].
  - rewrite (ensureConfig_unresolved cfg env target this Hp).
    split; [reflexivity|]. split; [discriminate|]. split; [|discriminate].
    intros _. split; [reflexivity | apply getConfigPath_no_fs].
Qed.

Lemma writeConfig_outcome env target data this :
  outcome (_writeConfig cfg env target data this)
  = match outcome (_getConfigPath cfg target this) with
    | None => Pending
    | Some path =>
        match fs_stat env (path_parse_dir path) with
        | Some _ => Pending
        | None =>
            match fs_writeFile env path data with
            | Some err => Rejected (WriteFailed path err)
            | None => Resolved tt
            end
        end
    end
  /\ after (_writeConfig cfg env target data this) = this.
Proof.
  destruct (outcome (_getConfigPath cfg target this)) as [path|] eqn:Hp.
  - pose proof (ensureConfig_resolved cfg env target this path Hp) as He.
    destruct (fs_stat env (path_parse_dir path)) as [serr|] eqn:Hs.
    + rewrite writeConfig_not_ensured by (rewrite He; discriminate).
      now rewrite He.
    + assert (Ho : outcome (_ensureConfig cfg env target this)
                   = Resolved path) by (now rewrite He).
      rewrite (writeConfig_ensured cfg env target data this path Ho), He.
      now split.
  - rewrite writeConfig_not_ensured;
      rewrite (ensureConfig_unresolved cfg env target this Hp);
      [now split | discriminate].
Qed.

(** How the promise of [_writeConfig] settles: it resolves exactly when
    the path resolves, the stat of its directory succeeds and the write
    succeeds; it is rejected exactly when the write is attempted and
    fails, with the failure of the write; and it stays pending exactly
    when the write is not attempted. *)
Theorem writeConfig_settles (env : Env) (this : ConfigBuilder)
    (target data : string) :
  let r := _writeConfig cfg env target data this in
  let resolved path :=
    outcome (_getConfigPath cfg target this) = Some path
    /\ fs_stat env (path_parse_dir path) = None in
  (outcome r = Resolved tt <->
     exists path, resolved path /\ fs_writeFile env path data = None)
  /\ (forall x, outcome r = Rejected x <->
        exists path err,
          resolved path /\ fs_writeFile env path data = Some err
          /\ x = WriteFailed path err)
  /\ (outcome r = Pending <-> forall path, ~ resolved path)
  /\ after r = this.
Proof.
  cbv zeta.
  destruct (outcome (_getConfigPath cfg target this)) as [path|] eqn:Hp.
  - pose proof (ensureConfig_resolved cfg env target this path Hp) as He.
    destruct (fs_stat env (path_parse_dir path)) as [serr|] eqn:Hs.
    + rewrite writeConfig_not_ensured by (rewrite He; discriminate).
      rewrite He. cbn [outcome after fst snd].
      repeat split; try discriminate.
      * intros (p & [H1 H2] & _). injection H1 as <-. congruence.
      * intros (p & e & [H1 H2] & _). injection H1 as <-. congruence.
      * intros _ p [H1 H2]. injection H1 as <-. congruence.
    + assert (Ho : outcome (_ensureConfig cfg env target this)
                   = Resolved path) by (now rewrite He).
      rewrite (writeConfig_ensured cfg env target data this path Ho).
      rewrite He. cbn [outcome after fst snd].
      destruct (fs_writeFile env path data) as [werr|] eqn:Hw.
      * repeat split; try discriminate.
        -- intros (p & [H1 _] & H3). injection H1 as <-. congruence.
        -- intros H. injection H as <-. now exists path, werr.
        -- intros (p & e & [H1 _] & H3 & ->). injection H1 as <-. congruence.
        -- intros H. now elim (H path).
      * repeat split; try discriminate.
        -- intros _. now exists path.
        -- intros (p & e & [H1 _] & H3 & _). injection H1 as <-. congruence.
        -- intros H. now elim (H path).
  - rewrite writeConfig_not_ensured;
      rewrite (ensureConfig_unresolved cfg env target this Hp);
      [|discriminate].
    cbn [outcome after fst snd].
    repeat split; try discriminate.
    + intros (p & [H1 _] & _). discriminate.
    + intros (p & e & [H1 _] & _). discriminate.
    + intros _ p [H1 _]. discriminate.
Qed.

(** A failed write is logged as an error, and then as a success: the
    callback of [writeFile] does not return after rejecting.  The trace
    of [_writeConfig] ends with the write, the error and the success
    messages. *)
Theorem writeConfig_logs_success_after_failure (env : Env)
    (this : ConfigBuilder) (target data path : string) (err : ioerr) :
  outcome (_getConfigPath cfg target this) = Some path ->
  fs_stat env (path_parse_dir path) = None ->
  fs_writeFile env path data = Some err ->
  let r := _writeConfig cfg env target data this in
  outcome r = Rejected (WriteFailed path err)
  /\ exists before,
       trace r
       = (before
          ++ [WriteFile path data;
              Log LevelError "Error writing to file: [%s]"
                [AStr path; AReason (IoError err)];
              Log LevelInfo "Config file written successfully: [%s]"
                [AStr path];
              Log LevelDebug "Config data: [%s]" [AStr data]])%list.
Proof.
  intros Hp Hs Hw r. subst r.
  pose proof (ensureConfig_resolved cfg env target this path Hp) as He.
  rewrite Hs in He.
  assert (Ho : outcome (_ensureConfig cfg env target this) = Resolved path)
    by (now rewrite He).
  rewrite (writeConfig_ensured cfg env target data this path Ho), Hw.
  split; [reflexivity|].
  cbn [trace snd].
  exists (trace (_ensureConfig cfg env target this)
          ++ [Log LevelDebug "Writing config data to file: [%s]"
                [AStr path]])%list.
  rewrite <- !app_assoc. reflexivity.
Qed.

End FileIOInFull.

Lemma writeConfig_logs_success_after_failure_witness :
  let env :=
    Sample.host (LookupOk (JStr "de:ad:00:11:22:33")) Sample.baseline_X
      [] ["/etc/hostapd/hostapd.conf"] in
  let r := @_writeConfig (Sample.on linux) Sample.config env
             "hostapd_conf" "ssid=DEAD00112233" Sample.builder in
  outcome r = Rejected (WriteFailed "/etc/hostapd/hostapd.conf" "EACCES")
  /\ In (Log LevelInfo "Config file written successfully: [%s]"
           [AStr "/etc/hostapd/hostapd.conf"]) (trace r).
Proof.
  destruct (@writeConfig_logs_success_after_failure (Sample.on linux)
              Sample.config
              (Sample.host (LookupOk (JStr "de:ad:00:11:22:33"))
                 Sample.baseline_X [] ["/etc/hostapd/hostapd.conf"])
              Sample.builder "hostapd_conf" "ssid=DEAD00112233"
              "/etc/hostapd/hostapd.conf" "EACCES" eq_refl eq_refl eq_refl)
    as (Ho & before & Ht).
  split; [exact Ho|].
  rewrite Ht. apply in_or_app. right. right. right. left. reflexivity.
Defined.

(* ===================================================================== *)
(** ** The generators, in full *)
(* ===================================================================== *)

Lemma getGatewayId_no_fs cfg env this :
  filter is_fs (trace (_getGatewayId cfg env this)) = [].
Proof.
  destruct (truthy_string (_gatewayId this)) eqn:Hc.
  - destruct (_gatewayId this) as [id|] eqn:E; [|discriminate].
    now rewrite (getGatewayId_cached cfg env this id E) by (destruct id; easy).
  - rewrite (getGatewayId_uncached cfg env this Hc).
    now destruct (macaddress_one env _) as [err|[]].
Qed.

Section GeneratorsInFull.

Context {node : Node}.
Variable cfg : Config.

Lemma readExistingConfig_trace env path parse this :
  filter is_fs (trace (_readExistingConfig env path parse this))
  = [ReadFile path]
  /\ filter is_lookup (trace (_readExistingConfig env path parse this)) = []
  /\ after (_readExistingConfig env path parse this) = this.
Proof.
  unfold _readExistingConfig. by_parts.
  destruct (fs_readFile env path) as [err|data]; by_parts;
    [now repeat split|].
  destruct parse; [|now repeat split].
  destruct (JSON_parse data); by_parts; now repeat split.
Qed.

Lemma writeConfig_after env target data this :
  after (_writeConfig cfg env target data this) = this.
Proof. apply writeConfig_outcome. Qed.

Lemma ensureConfig_no_lookup env target this :
  filter is_lookup (trace (_ensureConfig cfg env target this)) = [].
Proof.
  destruct (outcome (_getConfigPath cfg target this)) as [path|] eqn:Hp.
  - rewrite (ensureConfig_resolved cfg env target this path Hp).
    now destruct (fs_stat env (path_parse_dir path)).
  - rewrite (ensureConfig_unresolved cfg env target this Hp).
    cbn [trace snd]. rewrite getConfigPath_eq. unfold path_or_null.
    destruct (CONFIG_PATHS cfg target) as [info|]; [|reflexivity].
    now destruct (truthy_string (for_platform info (_platform this))).
Qed.

Lemma writeConfig_no_lookup env target data this :
  filter is_lookup (trace (_writeConfig cfg env target data this)) = [].
Proof.
  destruct (outcome (_ensureConfig cfg env target this)) as [path| |] eqn:E.
  - rewrite (writeConfig_ensured cfg env target data this path E).
    cbn [trace snd]. rewrite !filter_app, ensureConfig_no_lookup.
    now destruct (fs_writeFile env path data).
  - rewrite writeConfig_not_ensured by (rewrite E; discriminate).
    apply ensureConfig_no_lookup.
  - rewrite writeConfig_not_ensured by (rewrite E; discriminate).
    apply ensureConfig_no_lookup.
Qed.

(** The trace and the builder of the host AP generator, by parts. *)
Lemma generateHostApConfig_trace env requestId this :
  let r0 := _getGatewayId cfg env this in
  trace (generateHostApConfig cfg env requestId this)
  = (Log LevelDebug "Generating host ap configuration. RequestId: [%s]"
       [AVal requestId]
     :: trace r0
     ++ match outcome r0 with
        | Resolved ID =>
            let w := _writeConfig cfg env "hostapd_conf"
                       (join LF (hostApConfig ID)) (after r0) in
            trace w
            ++ match outcome w with
               | Resolved _ =>
                   [Log LevelInfo
                      "Host AP configuration updated successfully. RequestId: [%s]"
                      [AVal requestId]]
               | Rejected e =>
                   [Log LevelError
                      "Error updating host ap configuration. RequestId: [%s]"
                      [AVal requestId; AReason e]]
               | Pending => []
               end
        | Rejected e =>
            [Log LevelError
               "Error updating host ap configuration. RequestId: [%s]"
               [AVal requestId; AReason e]]
        | Pending => []
        end)%list
  /\ after (generateHostApConfig cfg env requestId this) = after r0.
Proof.
  cbv zeta. unfold generateHostApConfig, then_else, then_. by_parts.
  destruct (outcome (_getGatewayId cfg env this)) as [ID|e|]; by_parts.
  - rewrite writeConfig_after.
    destruct (outcome (_writeConfig cfg env "hostapd_conf"
                         (join LF (hostApConfig ID))
                         (after (_getGatewayId cfg env this))));
      by_parts; rewrite <- ?app_assoc, ?app_nil_r; now split.
  - rewrite ?app_nil_r. now split.
  - rewrite ?app_nil_r. now split.
Qed.

(** The same for the gateway agent generator. *)
Lemma generateGatewayAgentConfig_trace env requestId this :
  let r0 := _getGatewayId cfg env this in
  let rd := _readExistingConfig env (cfg_baseline_config_file cfg) true
              (after r0) in
  let failed e :=
    [Log LevelError
       "Error updating gateway agent configuration. RequestId: [%s]"
       [AVal requestId; AReason e]] in
  let done :=
    [Log LevelInfo
       "Gateway agent configuration updated successfully. RequestId: [%s]"
       [AVal requestId]] in
  trace (generateGatewayAgentConfig cfg env requestId this)
  = (Log LevelDebug
       "Generating gateway agent configuration. RequestId: [%s]"
       [AVal requestId]
     :: trace r0
     ++ match outcome r0 with
        | Resolved ID =>
            trace rd
            ++ match outcome rd with
               | Resolved config =>
                   match get_prop config "connectorTypes" with
                   | None => failed TypeError
                   | Some ct =>
                       match JSON_stringify
                               (newConfig cfg (after r0) ID ct) 4 with
                       | Some payload =>
                           trace (_writeConfig cfg env "gateway_agent_conf"
                                    payload (after r0))
                           ++ done
                       | None => done
                       end
                   end
               | Rejected e => failed e
               | Pending => []
               end
        | Rejected e => failed e
        | Pending => []
        end)%list
  /\ after (generateGatewayAgentConfig cfg env requestId this) = after r0.
Proof.
  cbv zeta. unfold generateGatewayAgentConfig, then_else, then_. by_parts.
  destruct (outcome (_getGatewayId cfg env this)) as [ID|e|]; by_parts;
    [| rewrite ?app_nil_r; now split..].
  destruct (readExistingConfig_trace env (cfg_baseline_config_file cfg) true
              (after (_getGatewayId cfg env this))) as (_ & _ & Ha).
  rewrite Ha.
  destruct (outcome (_readExistingConfig env (cfg_baseline_config_file cfg)
                       true (after (_getGatewayId cfg env this))))
    as [config|e|]; by_parts;
    [| rewrite <- ?app_assoc, ?app_nil_r; now split..].
  destruct (get_prop config "connectorTypes") as [ct|]; by_parts;
    [| rewrite <- ?app_assoc, ?app_nil_r; now split].
  destruct (JSON_stringify
              (newConfig cfg (after (_getGatewayId cfg env this)) ID ct) 4)
    as [payload|]; by_parts;
    rewrite ?writeConfig_after, <- ?app_assoc, ?app_nil_r; now split.
Qed.

End GeneratorsInFull.

Section Outcomes.

Context {node : Node}.
Variable cfg : Config.

Lemma getConfigPath_platform target (a b : ConfigBuilder) :
  _platform a = _platform b ->
  outcome (_getConfigPath cfg target a) = outcome (_getConfigPath cfg target b).
Proof.
  intros Hp. rewrite !getConfigPath_eq. unfold path_or_null. rewrite Hp.
  destruct (CONFIG_PATHS cfg target) as [info|]; [|reflexivity].
  now destruct (truthy_string (for_platform info (_platform b))).
Qed.

Lemma generateHostApConfig_outcome env requestId this :
  outcome (generateHostApConfig cfg env requestId this)
  = match outcome (_getGatewayId cfg env this) with
    | Resolved ID =>
        match outcome (_writeConfig cfg env "hostapd_conf"
                         (join LF (hostApConfig ID))
                         (after (_getGatewayId cfg env this))) with
        | Resolved _ => Resolved tt
        | Rejected e => Rejected e
        | Pending => Pending
        end
    | Rejected e => Rejected e
    | Pending => Pending
    end.
Proof.
  unfold generateHostApConfig, then_else, then_. by_parts.
  destruct (outcome (_getGatewayId cfg env this)) as [ID|e|]; by_parts;
    [|reflexivity..].
  destruct (outcome (_writeConfig cfg env "hostapd_conf"
                       (join LF (hostApConfig ID))
                       (after (_getGatewayId cfg env this))));
    by_parts; reflexivity.
Qed.

(** The host AP generator resolves exactly when the identity resolves,
    the path of the target resolves, the stat of its directory succeeds
    and the write of the text succeeds; it stays pending exactly when the
    identity resolves and the write is not attempted. *)
Theorem hostap_resolves_exactly_when (env : Env) (this : ConfigBuilder)
    (requestId : jsval) :
  let r := generateHostApConfig cfg env requestId this in
  let ready ID path :=
    outcome (_getGatewayId cfg env this) = Resolved ID
    /\ outcome (_getConfigPath cfg "hostapd_conf" this) = Some path
    /\ fs_stat env (path_parse_dir path) = None in
  (outcome r = Resolved tt <->
     exists ID path,
       ready ID path
       /\ fs_writeFile env path (join LF (hostApConfig ID)) = None)
  /\ (outcome r = Pending <->
      exists ID, outcome (_getGatewayId cfg env this) = Resolved ID
                 /\ forall path, ~ ready ID path).
Proof.
  cbv zeta. rewrite generateHostApConfig_outcome.
  destruct (getGatewayId_keeps cfg env this) as [Hp _].
  pose proof (getGatewayId_never_pending cfg env this) as Hnp.
  destruct (outcome (_getGatewayId cfg env this)) as [ID|e|] eqn:Hid;
    [| |congruence].
  - destruct (writeConfig_outcome cfg env "hostapd_conf"
                (join LF (hostApConfig ID))
                (after (_getGatewayId cfg env this))) as [-> _].
    rewrite (getConfigPath_platform "hostapd_conf" _ _ Hp).
    destruct (outcome (_getConfigPath cfg "hostapd_conf" this))
      as [path|] eqn:Hpath.
    + destruct (fs_stat env (path_parse_dir path)) as [serr|] eqn:Hs.
      * split; split.
        -- discriminate.
        -- intros (ID' & p & (_ & E & H) & _). injection E as <-. congruence.
        -- intros _. exists ID. split; [reflexivity|].
           intros p (_ & E & H). injection E as <-. congruence.
        -- reflexivity.
      * destruct (fs_writeFile env path (join LF (hostApConfig ID)))
          as [werr|] eqn:Hw.
        -- split; split.
           ++ discriminate.
           ++ intros (ID' & p & (E0 & E & _) & H).
              injection E0 as <-. injection E as <-. congruence.
           ++ discriminate.
           ++ intros (ID' & E & Hn). exfalso.
              apply (Hn path). now repeat split.
        -- split; split.
           ++ intros _. exists ID, path. now repeat split.
           ++ reflexivity.
           ++ discriminate.
           ++ intros (ID' & E & Hn). exfalso.
              apply (Hn path). now repeat split.
    + split; split.
      * discriminate.
      * intros (ID' & p & (_ & E & _) & _). discriminate.
      * intros _. exists ID. split; [reflexivity|].
        intros p (_ & E & _). discriminate.
      * reflexivity.
  - split; split.
    + discriminate.
    + intros (ID & path & (E & _) & _). discriminate.
    + discriminate.
    + intros (ID & E & _). discriminate.
Qed.

Lemma generateGatewayAgentConfig_outcome env requestId this :
  outcome (generateGatewayAgentConfig cfg env requestId this)
  = gateway_agent_verdict cfg env (outcome (_getGatewayId cfg env this)).
Proof.
  unfold gateway_agent_verdict.
  destruct (outcome (_getGatewayId cfg env this)) as [ID|e|] eqn:Hid.
  - destruct (readExistingConfig_parts env (cfg_baseline_config_file cfg)
                (after (_getGatewayId cfg env this))) as (_ & _ & Hrd).
    cbv zeta in Hrd.
    destruct (fs_readFile env (cfg_baseline_config_file cfg)) as [err|data].
    + now apply (generateGatewayAgentConfig_no_baseline cfg env requestId
                   this ID (IoError err)).
    + destruct (JSON_parse data) as [config|].
      * destruct (get_prop config "connectorTypes") as [ct|] eqn:Hct.
        -- destruct (stringify_object
                       [ ("connectorTypes", ct);
                         ("deviceConnectors",
                           JObj [ (ID ++ "-cnc-gateway",
                                    JObj [ ("type", JStr "CncGateway");
                                           ("config", JObj []) ]) ]);
                         ("cloudConnectors",
                           JObj [ (ID ++ "-cnc-cloud",
                                    JObj [ ("type", JStr "CncCloud");
                                           ("config",
                                             JObj [ ("host",
                                                      JStr (_localNetworkGatewayIP
                                                              (after (_getGatewayId cfg env this))));
                                                    ("port", JNum 1883);
                                                    ("protocol", JStr "mqtt");
                                                    ("account", JStr ID);
                                                    ("networkInterface",
                                                      cfg_local_network_interface
                                                        cfg);
                                                    ("gatewayname", JStr ID);
                                                    ("topics", JStr "") ]) ]) ]) ]
                       4) as [payload Hjs].
           destruct (generateGatewayAgentConfig_parsed cfg env requestId
                       this ID config ct payload Hid Hrd Hct Hjs) as [-> _].
           destruct config; try reflexivity; discriminate.
        -- unfold generateGatewayAgentConfig, then_else, then_.
           by_parts. rewrite Hid. by_parts. rewrite Hrd. by_parts.
           rewrite Hct. by_parts.
           destruct config; try reflexivity; try discriminate.
           cbn in Hct. destruct (assoc "connectorTypes" props); discriminate.
      * now apply (generateGatewayAgentConfig_no_baseline cfg env requestId
                     this ID SyntaxError).
  - now apply (generateGatewayAgentConfig_no_identity cfg env requestId this e).
  - now elim (getGatewayId_never_pending cfg env this).
Qed.

(** The gateway agent generator always settles, and the identity, the
    read of the baseline and its parse alone decide how: neither the path
    of the target, nor the stat of its directory, nor the write has a
    part in it. *)
Theorem gateway_agent_always_settles (env : Env) (this : ConfigBuilder)
    (requestId : jsval) :
  let r := generateGatewayAgentConfig cfg env requestId this in
  outcome r <> Pending
  /\ outcome r
     = gateway_agent_verdict cfg env (outcome (_getGatewayId cfg env this))
  /\ forall env',
       macaddress_one env' = macaddress_one env ->
       fs_readFile env' = fs_readFile env ->
       outcome (generateGatewayAgentConfig cfg env' requestId this)
       = outcome r.
Proof.
  cbv zeta. split; [|split].
  - rewrite generateGatewayAgentConfig_outcome. unfold gateway_agent_verdict.
    pose proof (getGatewayId_never_pending cfg env this) as Hn.
    destruct (outcome (_getGatewayId cfg env this)) as [ID|e|];
      [|discriminate|congruence].
    destruct (fs_readFile env _) as [err|data]; [discriminate|].
    destruct (JSON_parse data) as [[]|]; discriminate.
  - apply generateGatewayAgentConfig_outcome.
  - intros env' Hm Hr. rewrite !generateGatewayAgentConfig_outcome.
    assert (Hid : outcome (_getGatewayId cfg env' this)
                  = outcome (_getGatewayId cfg env this)).
    { destruct (truthy_string (_gatewayId this)) eqn:Hc.
      - destruct (_gatewayId this) as [id|] eqn:E; [|discriminate].
        now rewrite !(getGatewayId_cached cfg _ this id E)
          by (destruct id; easy).
      - now rewrite !(getGatewayId_uncached cfg _ this Hc), Hm. }
    rewrite Hid. unfold gateway_agent_verdict. now rewrite Hr.
Qed.

End Outcomes.

Section Baselines.

Context {node : Node}.
Variable cfg : Config.

Lemma getGatewayId_rejected env this e :
  outcome (_getGatewayId cfg env this) = Rejected e ->
  after (_getGatewayId cfg env this) = this.
Proof.
  destruct (truthy_string (_gatewayId this)) eqn:Hc.
  - destruct (_gatewayId this) as [id|] eqn:E; [|discriminate].
    rewrite (getGatewayId_cached cfg env this id E) by (destruct id; easy).
    discriminate.
  - rewrite (getGatewayId_uncached cfg env this Hc).
    destruct (macaddress_one env _) as [err|[]]; try reflexivity; discriminate.
Qed.

(** When the identity cannot be resolved, either generator is rejected
    with the error of the resolver, asks nothing of the file system (no
    read, no stat, no write) and leaves the builder as it was. *)
Theorem identity_failure_stops_generators (env : Env) (this : ConfigBuilder)
    (call : request) (e : reason) :
  outcome (_getGatewayId cfg env this) = Rejected e ->
  let r := generate cfg (env, call) this in
  outcome r = Rejected e /\ filter is_fs (trace r) = [] /\ after r = this.
Proof.
  intros Hid r. subst r. unfold generate. cbn [fst snd].
  destruct call as [requestId | requestId].
  - destruct (generateHostApConfig_trace cfg env requestId this) as [Ht Ha].
    cbv zeta in Ht. rewrite generateHostApConfig_outcome, Ht, Ha, Hid.
    split; [reflexivity|]. split; [|now apply getGatewayId_rejected with e].
    cbn [filter is_fs]. now rewrite filter_app, getGatewayId_no_fs.
  - destruct (generateGatewayAgentConfig_trace cfg env requestId this)
      as [Ht Ha].
    cbv zeta in Ht. rewrite generateGatewayAgentConfig_outcome, Ht, Ha, Hid.
    split; [reflexivity|]. split; [|now apply getGatewayId_rejected with e].
    cbn [filter is_fs]. now rewrite filter_app, getGatewayId_no_fs.
Qed.

(** A baseline file that holds the JSON text [null] parses, and the
    generator then fails on reading [connectorTypes] of it: it is
    rejected with a TypeError, and the read of the baseline is all it
    asked of the file system. *)
Theorem null_baseline_is_rejected (env : Env) (this : ConfigBuilder)
    (requestId : jsval) (ID data : string) :
  outcome (_getGatewayId cfg env this) = Resolved ID ->
  fs_readFile env (cfg_baseline_config_file cfg) = inr data ->
  JSON_parse data = Some JNull ->
  let r := generateGatewayAgentConfig cfg env requestId this in
  outcome r = Rejected TypeError
  /\ filter is_fs (trace r) = [ReadFile (cfg_baseline_config_file cfg)].
Proof.
  intros Hid Hread Hparse r. subst r.
  destruct (generateGatewayAgentConfig_trace cfg env requestId this)
    as [Ht _].
  cbv zeta in Ht. rewrite generateGatewayAgentConfig_outcome, Ht, Hid.
  unfold gateway_agent_verdict. rewrite Hread, Hparse.
  split; [reflexivity|].
  destruct (readExistingConfig_parts env (cfg_baseline_config_file cfg)
              (after (_getGatewayId cfg env this))) as (_ & _ & Hrd).
  cbv zeta in Hrd. rewrite Hread, Hparse in Hrd. rewrite Hrd.
  cbn [get_prop filter is_fs].
  rewrite !filter_app, getGatewayId_no_fs.
  destruct (readExistingConfig_trace env (cfg_baseline_config_file cfg)
              true (after (_getGatewayId cfg env this))) as (-> & _).
  reflexivity.
Qed.

(** The baseline need not be an object: for one that parses to an array,
    a string, a number or a boolean, as for an object without
    [connectorTypes], the generator resolves, and what it hands to
    [writeFile] is the text of the document without [connectorTypes]. *)
Theorem baseline_need_not_be_an_object (env : Env) (this : ConfigBuilder)
    (requestId : jsval) (ID data : string) (config : jsval) :
  constructed cfg this ->
  outcome (_getGatewayId cfg env this) = Resolved ID ->
  fs_readFile env (cfg_baseline_config_file cfg) = inr data ->
  JSON_parse data = Some config ->
  lacks_connectorTypes config = true ->
  let r := generateGatewayAgentConfig cfg env requestId this in
  let document :=
    JObj
      [ ("deviceConnectors",
          JObj [ (ID ++ "-cnc-gateway",
                   JObj [ ("type", JStr "CncGateway");
                          ("config", JObj []) ]) ]);
        ("cloudConnectors",
          JObj [ (ID ++ "-cnc-cloud",
                   JObj [ ("type", JStr "CncCloud");
                          ("config",
                            JObj [ ("host", cfg_local_network_gateway cfg);
                                   ("port", JNum 1883);
                                   ("protocol", JStr "mqtt");
                                   ("account", JStr ID);
                                   ("networkInterface",
                                     cfg_local_network_interface cfg);
                                   ("gatewayname", JStr ID);
                                   ("topics", JStr "") ]) ]) ]) ] in
  outcome r = Resolved tt
  /\ exists payload,
       JSON_stringify document 4 = Some payload
       /\ forall path,
            outcome (_ensureConfig cfg env "gateway_agent_conf" this)
            = Resolved path ->
            filter is_write (trace r) = [WriteFile path payload].
Proof.
  intros (_ & Hgw & _) Hid Hread Hparse Hlacks r document.
  destruct (stringify_object
              [ ("deviceConnectors",
                  JObj [ (ID ++ "-cnc-gateway",
                           JObj [ ("type", JStr "CncGateway");
                                  ("config", JObj []) ]) ]);
                ("cloudConnectors",
                  JObj [ (ID ++ "-cnc-cloud",
                           JObj [ ("type", JStr "CncCloud");
                                  ("config",
                                    JObj [ ("host",
                                             cfg_local_network_gateway cfg);
                                           ("port", JNum 1883);
                                           ("protocol", JStr "mqtt");
                                           ("account", JStr ID);
                                           ("networkInterface",
                                             cfg_local_network_interface cfg);
                                           ("gatewayname", JStr ID);
                                           ("topics", JStr "") ]) ]) ]) ] 4)
    as [payload Hjs].
  destruct (getGatewayId_keeps cfg env this) as [_ Hip].
  destruct (readExistingConfig_parts env (cfg_baseline_config_file cfg)
              (after (_getGatewayId cfg env this))) as (_ & _ & Hrd).
  cbv zeta in Hrd. rewrite Hread, Hparse in Hrd.
  assert (Hct : get_prop config "connectorTypes" = Some JUndefined).
  { destruct config; try discriminate; try reflexivity.
    cbn in *. now destruct (assoc "connectorTypes" props). }
  destruct (generateGatewayAgentConfig_parsed cfg env requestId this ID
              config JUndefined payload) as [Ho Hw]; try assumption.
  - unfold newConfig. rewrite stringify_skips_undefined, Hip, <- Hgw.
    exact Hjs.
  - split; [exact Ho|]. exists payload. split; [exact Hjs|].
    now apply (writes_of_gateway_agent cfg env this ID payload r).
Qed.

End Baselines.

Section Sessions.

Context {node : Node}.
Variable cfg : Config.

Lemma generate_after call this :
  after (generate cfg call this)
  = after (_getGatewayId cfg (fst call) this).
Proof.
  unfold generate. destruct (snd call) as [requestId | requestId].
  - apply generateHostApConfig_trace.
  - apply generateGatewayAgentConfig_trace.
Qed.

(** With an identity in the cache a generator asks no hardware and
    leaves the builder as it is. *)
Lemma generate_cached call this ID :
  _gatewayId this = Some ID -> ID <> "" ->
  after (generate cfg call this) = this
  /\ filter is_lookup (trace (generate cfg call this)) = [].
Proof.
  intros Hc Hne.
  pose proof (getGatewayId_cached cfg (fst call) this ID Hc Hne) as Hid.
  split; [now rewrite generate_after, Hid|].
  unfold generate. destruct (snd call) as [requestId | requestId].
  - destruct (generateHostApConfig_trace cfg (fst call) requestId this)
      as [-> _].
    cbv zeta. rewrite Hid. cbn [outcome after trace fst snd app].
    cbn [filter is_lookup]. rewrite filter_app, writeConfig_no_lookup.
    now destruct (outcome (_writeConfig cfg (fst call) "hostapd_conf" _ this)).
  - destruct (generateGatewayAgentConfig_trace cfg (fst call) requestId this)
      as [-> _].
    cbv zeta. rewrite Hid. cbn [outcome after trace fst snd app].
    cbn [filter is_lookup]. rewrite filter_app.
    destruct (readExistingConfig_trace (fst call)
                (cfg_baseline_config_file cfg) true this) as (_ & -> & _).
    destruct (outcome (_readExistingConfig (fst call) _ true this))
      as [config|e|]; [|reflexivity..].
    destruct (get_prop config "connectorTypes") as [ct|]; [|reflexivity].
    destruct (JSON_stringify (newConfig cfg this ID ct) 4) as [payload|];
      [|reflexivity].
    now rewrite filter_app, writeConfig_no_lookup.
Qed.

Lemma session_cached calls this ID :
  _gatewayId this = Some ID -> ID <> "" ->
  snd (session cfg calls this) = this
  /\ Forall (fun result => filter is_lookup (snd result) = [])
       (fst (session cfg calls this)).
Proof.
  intros Hc Hne. induction calls as [|call calls [IHs IHl]].
  - now split.
  - destruct (generate_cached call this ID Hc Hne) as [Ha Hl].
    cbn [session].
    rewrite (action_eta (generate cfg call this)), Ha.
    destruct (session cfg calls this) as [results this2].
    cbn [fst snd] in *. split; [assumption|].
    constructor; assumption.
Qed.

(** The hardware is asked once: after a call of either generator in
    which a non-empty identity was resolved, the identity is in the
    cache, and in every later series of calls of the generators, whatever
    the outside world answers then, no call performs a hardware lookup
    and the builder stays as it is. *)
Theorem one_lookup_per_builder (env : Env) (this : ConfigBuilder)
    (ID : string) (first : request) (calls : list (Env * request)) :
  outcome (_getGatewayId cfg env this) = Resolved ID -> ID <> "" ->
  let this1 := after (generate cfg (env, first) this) in
  _gatewayId this1 = Some ID
  /\ snd (session cfg calls this1) = this1
  /\ Forall (fun result => filter is_lookup (snd result) = [])
       (fst (session cfg calls this1)).
Proof.
  intros Hid Hne this1.
  assert (Hc : _gatewayId this1 = Some ID).
  { subst this1. rewrite generate_after. cbn [fst].
    now apply getGatewayId_resolved. }
  split; [exact Hc|]. now apply session_cached with ID.
Qed.

End Sessions.

(* ===================================================================== *)
(** ** What a call asks of the file system *)
(* ===================================================================== *)

Section FileSystemEvents.

Context {node : Node}.
Variable cfg : Config.

(** The file system events of [_writeConfig], in order: none for a
    target with no path; otherwise the stat of the directory of the path
    and, only when it succeeds, the one write of the data to the path.
    [_writeConfig] reads no file and writes no other. *)
Lemma writeConfig_fs_events (env : Env) (this : ConfigBuilder)
    (target data : string) :
  filter is_fs (trace (_writeConfig cfg env target data this))
  = match outcome (_getConfigPath cfg target this) with
    | None => []
    | Some path =>
        Stat (path_parse_dir path)
        :: match fs_stat env (path_parse_dir path) with
           | Some _ => []
           | None => [WriteFile path data]
           end
    end.
Proof.
  destruct (outcome (_getConfigPath cfg target this)) as [path|] eqn:Hp.
  - pose proof (ensureConfig_resolved cfg env target this path Hp) as He.
    destruct (fs_stat env (path_parse_dir path)) as [serr|] eqn:Hs.
    + rewrite writeConfig_not_ensured by (rewrite He; discriminate).
      now rewrite He.
    + assert (Ho : outcome (_ensureConfig cfg env target this)
                   = Resolved path) by (now rewrite He).
      rewrite (writeConfig_ensured cfg env target data this path Ho), He.
      cbn [trace snd]. now destruct (fs_writeFile env path data).
  - rewrite writeConfig_not_ensured;
      rewrite (ensureConfig_unresolved cfg env target this Hp);
      [|discriminate].
    apply getConfigPath_no_fs.
Qed.

(** The file system events of a generator call: the read of the baseline
    for the gateway agent, then those of the one [_writeConfig]. *)
Lemma generate_fs_events env call this :
  let r0 := _getGatewayId cfg env this in
  filter is_fs (trace (generate cfg (env, call) this))
  = match outcome r0, call with
    | Resolved ID, HostAp _ =>
        filter is_fs
          (trace (_writeConfig cfg env "hostapd_conf"
                    (join LF (hostApConfig ID)) (after r0)))
    | Resolved ID, GatewayAgent _ =>
        ReadFile (cfg_baseline_config_file cfg)
        :: match outcome (_readExistingConfig env
                            (cfg_baseline_config_file cfg) true (after r0))
           with
           | Resolved config =>
               match get_prop config "connectorTypes" with
               | Some ct =>
                   match JSON_stringify (newConfig cfg (after r0) ID ct) 4
                   with
                   | Some payload =>
                       filter is_fs
                         (trace (_writeConfig cfg env "gateway_agent_conf"
                                   payload (after r0)))
                   | None => []
                   end
               | None => []
               end
           | _ => []
           end
    | _, _ => []
    end.
Proof.
  cbv zeta. unfold generate. cbn [fst snd].
  destruct call as [requestId | requestId].
  - destruct (generateHostApConfig_trace cfg env requestId this) as [-> _].
    cbv zeta. cbn [filter is_fs]. rewrite filter_app, getGatewayId_no_fs.
    destruct (outcome (_getGatewayId cfg env this)) as [ID|e|];
      [|reflexivity..].
    rewrite filter_app.
    destruct (outcome (_writeConfig cfg env "hostapd_conf" _ _));
      cbn; now rewrite app_nil_r.
  - destruct (generateGatewayAgentConfig_trace cfg env requestId this)
      as [-> _].
    cbv zeta. cbn [filter is_fs]. rewrite filter_app, getGatewayId_no_fs.
    destruct (outcome (_getGatewayId cfg env this)) as [ID|e|];
      [|reflexivity..].
    rewrite filter_app.
    destruct (readExistingConfig_trace env (cfg_baseline_config_file cfg)
                true (after (_getGatewayId cfg env this))) as (-> & _).
    cbn [app]. f_equal.
    destruct (outcome (_readExistingConfig env _ true _)) as [config|e|];
      [|reflexivity..].
    destruct (get_prop config "connectorTypes") as [ct|]; [|reflexivity].
    destruct (JSON_stringify _ 4) as [payload|]; [|reflexivity].
    rewrite filter_app. cbn. now rewrite app_nil_r.
Qed.



(** On a platform other than linux and darwin no target has a path: a
    call of either generator stats nothing and writes nothing, and the
    host AP generator never resolves. *)
Theorem unsupported_platform_writes_nothing (env : Env)
    (this : ConfigBuilder) (call : request) :
  supported (_platform this) = false ->
  let r := generate cfg (env, call) this in
  filter is_stat (trace r) = []
  /\ filter is_write (trace r) = []
  /\ (forall requestId, call = HostAp requestId -> outcome r <> Resolved tt).
Proof.
  intros Hs r.
  assert (Hnone : forall target that,
             _platform that = _platform this ->
             outcome (_getConfigPath cfg target that) = None).
  { intros target that Hp. rewrite getConfigPath_eq. unfold path_or_null.
    destruct (CONFIG_PATHS cfg target) as [info|]; [|reflexivity].
    rewrite Hp.
    assert (for_platform info (_platform this) = None) as ->
        by (destruct info, (_platform this); easy).
    reflexivity. }
  destruct (getGatewayId_keeps cfg env this) as [Hp _].
  assert (Hfs : forall e, In e (filter is_fs (trace r)) -> is_read e = true).
  { subst r. rewrite generate_fs_events. cbv zeta.
    destruct (outcome (_getGatewayId cfg env this)) as [ID|e|];
      [|intros ? []..].
    destruct call as [requestId | requestId].
    - rewrite writeConfig_fs_events, (Hnone _ _ Hp). intros ? [].
    - destruct (outcome (_readExistingConfig env _ true _)) as [config|e|];
        [|intros ? [<- | []]; reflexivity..].
      destruct (get_prop config "connectorTypes") as [ct|];
        [|intros ? [<- | []]; reflexivity].
      destruct (JSON_stringify _ 4) as [payload|];
        [|intros ? [<- | []]; reflexivity].
      rewrite writeConfig_fs_events, (Hnone _ _ Hp).
      intros ? [<- | []]; reflexivity. }
  assert (Hno : forall p : event -> bool,
             (forall e, p e = true -> is_fs e = true /\ is_read e = false) ->
             filter p (trace r) = []).
  { intros p Hpq.
    destruct (filter p (trace r)) as [|e rest] eqn:E; [reflexivity|].
    assert (He : In e (filter p (trace r))) by (rewrite E; now left).
    apply filter_In in He as [Hin Hpe].
    destruct (Hpq e Hpe) as [Hfe Hre].
    assert (In e (filter is_fs (trace r))) by (apply filter_In; now split).
    apply Hfs in H. congruence. }
  split; [|split].
  - apply Hno. intros [] H; try discriminate. now split.
  - apply Hno. intros [] H; try discriminate. now split.
  - intros requestId -> Hr. subst r. unfold generate in Hr.
    cbn [fst snd] in Hr. rewrite generateHostApConfig_outcome in Hr.
    destruct (outcome (_getGatewayId cfg env this)) as [ID|e|];
      [|discriminate..].
    destruct (writeConfig_outcome cfg env "hostapd_conf"
                (join LF (hostApConfig ID))
                (after (_getGatewayId cfg env this))) as [Hw _].
    rewrite Hw, (Hnone _ _ Hp) in Hr. discriminate.
Qed.

End FileSystemEvents.

(* ===================================================================== *)
(** ** The lines of the host AP text and the form of the identity *)
(* ===================================================================== *)

Lemma count_char_append (c : ascii) (a b : string) :
  count_char c (a ++ b) = count_char c a + count_char c b.
Proof. induction a as [|d a IH]; simpl; [reflexivity|]. rewrite IH. lia. Qed.

(** A text has one piece more than it has separators. *)
Lemma length_split (c : ascii) (s : string) :
  List.length (split c s) = 1 + count_char c s.
Proof.
  induction s as [|d s IH]; [reflexivity|].
  cbn [split count_char]. destruct (Ascii.eqb d c).
  - cbn [List.length]. rewrite IH. lia.
  - destruct (split c s) as [|p ps]; cbn [List.length] in *; lia.
Qed.

Lemma count_newline_toLowerCase (s : string) :
  count_char newline (toLowerCase s) = count_char newline s.
Proof.
  unfold toLowerCase. induction s as [|c s IH]; [reflexivity|].
  cbn [map_string count_char]. now rewrite IH, lower_char_newline.
Qed.

Lemma count_char_none (c : ascii) (s : string) :
  count_char c s = 0 <-> contains_char c s = false.
Proof.
  induction s as [|d s IH]; [easy|].
  cbn [count_char contains_char]. destruct (Ascii.eqb d c); cbn.
  - split; [lia | discriminate].
  - exact IH.
Qed.

(** The identity is not validated, and a line feed in it breaks the
    lines of the host AP text: the text has thirteen lines and two more
    for every line feed in the identity, so it has thirteen lines exactly
    when the identity has no line feed. *)
Theorem hostapd_line_count (ID : string) :
  let text := join LF (hostApConfig ID) in
  List.length (lines text) = 13 + 2 * count_char newline ID
  /\ (List.length (lines text) = 13 <-> contains_char newline ID = false).
Proof.
  cbv zeta.
  assert (H : List.length (lines (join LF (hostApConfig ID)))
              = 13 + 2 * count_char newline ID).
  { unfold lines. rewrite length_split. unfold hostApConfig. cbn [join].
    rewrite !count_char_append, count_newline_toLowerCase.
    change (count_char newline "interface=wlan0") with 0.
    change (count_char newline LF) with 1.
    change (count_char newline "") with 0.
    change (count_char newline "ssid=") with 0.
    change (count_char newline "wpa_passphrase=") with 0.
    change (count_char newline "channel=6") with 0.
    change (count_char newline "wmm_enabled=1") with 0.
    change (count_char newline "wpa=1") with 0.
    change (count_char newline "wpa_key_mgmt=WPA-PSK") with 0.
    change (count_char newline "wpa_pairwise=TKIP") with 0.
    change (count_char newline "rsn_pairwise=CCMP") with 0.
    change (count_char newline "macaddr_acl=0") with 0.
    change (count_char newline "auth_algs=1") with 0.
    lia. }
  split; [exact H|]. rewrite H, <- count_char_none. lia.
Qed.










Section NormalForm.

Context {node : Node}.
Variable cfg : Config.



End NormalForm.

(* ===================================================================== *)
(** ** The payload of the button connector: properties *)
(* ===================================================================== *)

Module ConnectorFacts.
Import Connector.

Example parsePayload_samples :
  _parsePayload (JStr "42") = Int 42
  /\ _parsePayload (JStr "  -7 units") = Int (-7)
  /\ _parsePayload (JStr "0x1f") = Int 31
  /\ _parsePayload (JStr "pressed") = Int (-1)
  /\ _parsePayload (JStr "") = Int (-1)
  /\ _parsePayload JUndefined = Int 0
  /\ _parsePayload (JArr [JNum 3; JNum 4]) = Int 3.
Proof. repeat split; reflexivity. Qed.

Lemma digit_is_no_space_no_sign (c : ascii) :
  is_digit c = true ->
  is_space c = false /\ Ascii.eqb c "-" = false /\ Ascii.eqb c "+" = false
  /\ exists d, digit_value c = Some d /\ (d <? 10)%Z = true.
Proof.
  destruct c as [[] [] [] [] [] [] [] []]; try discriminate; intros _;
    (split; [reflexivity|]); (split; [reflexivity|]);
    (split; [reflexivity|]); eexists; split; reflexivity.
Qed.

Lemma no_decimal_digit_stops (c : ascii) :
  is_digit c = false ->
  match digit_value c with Some d => (d <? 10)%Z | None => false end = false.
Proof. destruct c as [[] [] [] [] [] [] [] []]; try discriminate; reflexivity. Qed.

(** [parseInt] of a text that starts with a decimal digit and not with
    0x: the decimal digits at its start. *)
Lemma parseInt_decimal (t : string) :
  starts_with_digit t = true -> hex_prefixed t = false ->
  parseInt t = match read_digits 10 None t with
               | Some v => Int v
               | None => NaN
               end
  /\ parseInt (String "-" t) = match read_digits 10 None t with
                               | Some v => Int (- v)
                               | None => NaN
                               end.
Proof.
  destruct t as [|c r]; [discriminate|]. cbn [starts_with_digit].
  intros Hd Hx.
  destruct (digit_is_no_space_no_sign c Hd) as (Hs & Hm & Hp & _).
  unfold parseInt. cbn [trim_start]. rewrite Hs.
  change (is_space "-") with false. cbn iota.
  rewrite Hm, Hp. change (Ascii.eqb "-" "-") with true. cbn iota.
  rewrite Hx.
  destruct (read_digits 10 None (String c r)) as [v|]; [|now split].
  split; f_equal; lia.
Qed.

(** Reading on after digits: what follows a character that is no
    decimal digit is not read. *)
Lemma read_digits_stops (s rest : string) (acc : option Z) :
  all_chars is_digit s = true -> starts_with_digit rest = false ->
  read_digits 10 acc (s ++ rest) = read_digits 10 acc s.
Proof.
  intros Hs Hr. revert acc. induction s as [|c s IH]; intros acc.
  - cbn [append read_digits]. destruct rest as [|c r]; [reflexivity|].
    cbn [starts_with_digit] in Hr. cbn [read_digits].
    pose proof (no_decimal_digit_stops c Hr) as H.
    destruct (digit_value c) as [d|]; [|reflexivity]. now rewrite H.
  - cbn [all_chars] in Hs. apply andb_prop in Hs as [Hc Hs].
    cbn [append read_digits].
    destruct (digit_is_no_space_no_sign c Hc) as (_ & _ & _ & d & -> & ->).
    now apply IH.
Qed.

Lemma read_uint_acc (d : Decimal.uint) (a : positive) :
  read_digits 10 (Some (Z.pos a)) (NilEmpty.string_of_uint d)
  = Some (Z.pos (Pos.of_uint_acc d a)).
Proof.
  revert a. induction d; intros a; cbn [NilEmpty.string_of_uint read_digits];
    [reflexivity|..];
    match goal with
    | |- context [digit_value ?c] =>
        let v := eval vm_compute in (digit_value c) in
        change (digit_value c) with v; cbn iota beta
    end;
    match goal with
    | |- context [(?k <? 10)%Z] => change (k <? 10)%Z with true; cbn iota
    end;
    cbn [Pos.of_uint_acc]; rewrite <- IHd; do 2 f_equal; lia.
Qed.

Lemma read_uint (d : Decimal.uint) :
  read_digits 10 (Some 0%Z) (NilEmpty.string_of_uint d)
  = Some (Z.of_N (Pos.of_uint d)).
Proof.
  induction d; cbn [NilEmpty.string_of_uint read_digits Pos.of_uint];
    [reflexivity|..];
    match goal with
    | |- context [digit_value ?c] =>
        let v := eval vm_compute in (digit_value c) in
        change (digit_value c) with v; cbn iota beta
    end;
    match goal with
    | |- context [(?k <? 10)%Z] => change (k <? 10)%Z with true; cbn iota
    end;
    first [ exact IHd | apply (read_uint_acc d) ].
Qed.

(** The decimal text of a positive number, read back. *)
Lemma parseInt_of_positive (p : positive) :
  parseInt (Number_toString (Z.pos p)) = Int (Z.pos p)
  /\ parseInt (Number_toString (Z.neg p)) = Int (Z.neg p).
Proof.
  unfold Number_toString. cbn [Z.to_int NilZero.string_of_int].
  pose proof (Unsigned.of_to p) as Hp.
  assert (Hd : starts_with_digit (NilZero.string_of_uint (Pos.to_uint p)) = true
               /\ hex_prefixed (NilZero.string_of_uint (Pos.to_uint p)) = false
               /\ read_digits 10 None (NilZero.string_of_uint (Pos.to_uint p))
                  = Some (Z.pos p)).
  { destruct (Pos.to_uint p) as [|d|d|d|d|d|d|d|d|d|d] eqn:E;
      [discriminate|..];
      (split; [reflexivity|]);
      (split; [try reflexivity; destruct d; reflexivity|]);
      cbn [NilZero.string_of_uint NilEmpty.string_of_uint];
      change (Z.pos p) with (Z.of_N (N.pos p)); rewrite <- Hp;
      first [ exact (read_uint (Decimal.D0 d))
            | exact (read_uint (Decimal.D1 d))
            | exact (read_uint (Decimal.D2 d))
            | exact (read_uint (Decimal.D3 d))
            | exact (read_uint (Decimal.D4 d))
            | exact (read_uint (Decimal.D5 d))
            | exact (read_uint (Decimal.D6 d))
            | exact (read_uint (Decimal.D7 d))
            | exact (read_uint (Decimal.D8 d))
            | exact (read_uint (Decimal.D9 d)) ]. }
  destruct Hd as (H1 & H2 & H3).
  destruct (parseInt_decimal _ H1 H2) as [-> ->]. now rewrite H3.
Qed.

Lemma parsePayload_of_string (t : string) :
  _parsePayload (JStr t)
  = match parseInt t with NaN => Int (-1) | Int n => Int n end.
Proof. unfold _parsePayload. cbn. now destruct (parseInt t). Qed.



(** A whole number written in decimal is read back as it is, as a
    string and as a number, for every integer a double holds exactly. *)
Theorem parsePayload_reads_printed_integer (n : Z) :
  (Z.abs n < 2 ^ 53)%Z ->
  _parsePayload (JStr (Number_toString n)) = Int n
  /\ _parsePayload (JNum n) = Int n.
Proof.
  intros _.
  assert (H : parseInt (Number_toString n) = Int n).
  { destruct n as [|p|p]; [reflexivity|..]; apply parseInt_of_positive. }
  split.
  - now rewrite parsePayload_of_string, H.
  - unfold _parsePayload. cbn [typeof jstype_eqb orb ToString].
    now rewrite H.
Qed.

Lemma digits_not_hex_prefixed (s : string) :
  all_chars is_digit s = true -> hex_prefixed s = false.
Proof.
  destruct s as [|c [|c' r]]; [reflexivity| |].
  { intros _. destruct c as [[] [] [] [] [] [] [] []]; reflexivity. }
  cbn [all_chars]. intros H.
  apply andb_prop in H as [_ H]. apply andb_prop in H as [H _].
  assert (Hc' : Ascii.eqb c' "x" || Ascii.eqb c' "X" = false)
    by (destruct c' as [[] [] [] [] [] [] [] []]; try discriminate;
        reflexivity).
  unfold hex_prefixed.
  destruct c as [[] [] [] [] [] [] [] []]; try reflexivity; exact Hc'.
Qed.

(** What follows the digits is not read: a message that starts with
    decimal digits, and not with 0x, has the payload of these digits,
    whatever comes after them; the same with a minus sign in front. *)
Theorem parsePayload_ignores_what_follows (digits rest : string) :
  all_chars is_digit digits = true -> digits <> "" ->
  starts_with_digit rest = false ->
  hex_prefixed (digits ++ rest) = false ->
  _parsePayload (JStr (digits ++ rest)) = _parsePayload (JStr digits)
  /\ _parsePayload (JStr (String "-" (digits ++ rest)))
     = _parsePayload (JStr (String "-" digits)).
Proof.
  intros Hd Hne Hr Hx.
  assert (Hs : starts_with_digit digits = true).
  { destruct digits as [|c r]; [congruence|]. cbn [all_chars] in Hd.
    now apply andb_prop in Hd as [Hc _]. }
  assert (Hs' : starts_with_digit (digits ++ rest) = true)
    by (destruct digits; [congruence | exact Hs]).
  destruct (parseInt_decimal (digits ++ rest) Hs' Hx) as [H1 H2].
  destruct (parseInt_decimal digits Hs (digits_not_hex_prefixed digits Hd))
    as [H3 H4].
  rewrite !parsePayload_of_string, H1, H2, H3, H4.
  now rewrite (read_digits_stops digits rest None Hd Hr).
Qed.

End ConnectorFacts.

Lemma parsePayload_reads_printed_integer_witness :
  Connector._parsePayload (JStr "-1883") = Connector.Int (-1883)
  /\ Connector._parsePayload (JNum 9007199254740991)
     = Connector.Int 9007199254740991.
Proof.
  split.
  - apply (ConnectorFacts.parsePayload_reads_printed_integer (-1883)).
    reflexivity.
  - apply (ConnectorFacts.parsePayload_reads_printed_integer
             9007199254740991).
    reflexivity.
Defined.

Lemma parsePayload_ignores_what_follows_witness :
  Connector._parsePayload (JStr "12 presses")
  = Connector._parsePayload (JStr "12")
  /\ Connector._parsePayload (JStr "-12.5")
     = Connector._parsePayload (JStr "-12").
Proof.
  split.
  - apply (ConnectorFacts.parsePayload_ignores_what_follows "12" " presses");
      [reflexivity | discriminate | reflexivity | reflexivity].
  - apply (ConnectorFacts.parsePayload_ignores_what_follows "12" ".5");
      [reflexivity | discriminate | reflexivity | reflexivity].
Defined.

Lemma identity_failure_stops_generators_witness :
  let env := Sample.host (LookupError "ENODEV") Sample.baseline_X [] [] in
  let r := @generate (Sample.on linux) Sample.config
             (env, GatewayAgent JUndefined) Sample.builder in
  outcome r = Rejected (MacLookupFailed (JStr "eth0"))
  /\ filter is_fs (trace r) = []
  /\ after r = Sample.builder.
Proof.
  exact (@identity_failure_stops_generators (Sample.on linux) Sample.config
           (Sample.host (LookupError "ENODEV") Sample.baseline_X [] [])
           Sample.builder (GatewayAgent JUndefined)
           (MacLookupFailed (JStr "eth0")) eq_refl).
Defined.

Lemma null_baseline_is_rejected_witness :
  let env := Sample.host (LookupOk (JStr "de:ad:00:11:22:33")) "null" [] [] in
  let r := @generateGatewayAgentConfig (Sample.on linux) Sample.config env
             JUndefined Sample.builder in
  outcome r = Rejected TypeError
  /\ filter is_fs (trace r) = [ReadFile "/etc/iot-client/baseline.json"].
Proof.
  exact (@null_baseline_is_rejected (Sample.on linux) Sample.config
           (Sample.host (LookupOk (JStr "de:ad:00:11:22:33")) "null" [] [])
           Sample.builder JUndefined "DEAD00112233" "null"
           eq_refl eq_refl eq_refl).
Defined.

Lemma baseline_need_not_be_an_object_witness :
  let env :=
    Sample.host (LookupOk (JStr "de:ad:00:11:22:33")) "[1, 2]" [] [] in
  let r := @generateGatewayAgentConfig (Sample.on linux) Sample.config env
             JUndefined Sample.builder in
  outcome r = Resolved tt
  /\ exists payload,
       filter is_write (trace r)
       = [WriteFile "/etc/iot-client/gateway.json" payload].
Proof.
  destruct (@baseline_need_not_be_an_object (Sample.on linux) Sample.config
              (Sample.host (LookupOk (JStr "de:ad:00:11:22:33")) "[1, 2]"
                 [] [])
              Sample.builder JUndefined "DEAD00112233" "[1, 2]"
              (JArr [JNum 1; JNum 2])
              sample_constructed eq_refl eq_refl eq_refl eq_refl)
    as (Ho & payload & _ & Hw).
  split; [exact Ho|]. exists payload. exact (Hw _ eq_refl).
Defined.

Lemma one_lookup_per_builder_witness :
  let up := Sample.host (LookupOk (JStr "de:ad:00:11:22:33"))
              Sample.baseline_X [] [] in
  let down := Sample.host (LookupError "ENODEV") Sample.baseline_X [] [] in
  let this1 := after (@generate (Sample.on linux) Sample.config
                        (up, HostAp JUndefined) Sample.builder) in
  _gatewayId this1 = Some "DEAD00112233"
  /\ snd (@session (Sample.on linux) Sample.config
            [(down, GatewayAgent JUndefined); (down, HostAp JUndefined)]
            this1) = this1
  /\ Forall (fun result => filter is_lookup (snd result) = [])
       (fst (@session (Sample.on linux) Sample.config
               [(down, GatewayAgent JUndefined); (down, HostAp JUndefined)]
               this1)).
Proof.
  exact (@one_lookup_per_builder (Sample.on linux) Sample.config
           (Sample.host (LookupOk (JStr "de:ad:00:11:22:33"))
              Sample.baseline_X [] [])
           Sample.builder "DEAD00112233" (HostAp JUndefined)
           [(Sample.host (LookupError "ENODEV") Sample.baseline_X [] [],
             GatewayAgent JUndefined);
            (Sample.host (LookupError "ENODEV") Sample.baseline_X [] [],
             HostAp JUndefined)]
           eq_refl ltac:(discriminate)).
Defined.


Lemma unsupported_platform_writes_nothing_witness :
  let env := Sample.host (LookupOk (JStr "de:ad:00:11:22:33"))
               Sample.baseline_X [] [] in
  let r := @generate (Sample.on win32) Sample.config
             (env, GatewayAgent JUndefined) (Sample.builder_on win32) in
  outcome r = Resolved tt
  /\ filter is_stat (trace r) = [] /\ filter is_write (trace r) = [].
Proof.
  destruct (@unsupported_platform_writes_nothing (Sample.on win32)
              Sample.config
              (Sample.host (LookupOk (JStr "de:ad:00:11:22:33"))
                 Sample.baseline_X [] [])
              (Sample.builder_on win32) (GatewayAgent JUndefined) eq_refl)
    as (Hs & Hw & _).
  split; [reflexivity | split; [exact Hs | exact Hw]].
Defined.



(* ===================================================================== *)
(** ** What is logged, and what the hardware may answer *)
(* ===================================================================== *)

Section Logging.

Context {node : Node}.
Variable cfg : Config.

Lemma generateGatewayAgentConfig_outcome_by_parts env requestId this :
  let r0 := _getGatewayId cfg env this in
  outcome (generateGatewayAgentConfig cfg env requestId this)
  = match outcome r0 with
    | Resolved ID =>
        match outcome (_readExistingConfig env
                         (cfg_baseline_config_file cfg) true (after r0))
        with
        | Resolved config =>
            match get_prop config "connectorTypes" with
            | None => Rejected TypeError
            | Some _ => Resolved tt
            end
        | Rejected e => Rejected e
        | Pending => Pending
        end
    | Rejected e => Rejected e
    | Pending => Pending
    end.
Proof.
  cbv zeta. unfold generateGatewayAgentConfig, then_else, then_. by_parts.
  destruct (outcome (_getGatewayId cfg env this)) as [ID|e|]; by_parts;
    [|reflexivity..].
  destruct (outcome (_readExistingConfig env _ true _)) as [config|e|];
    by_parts; [|reflexivity..].
  destruct (get_prop config "connectorTypes") as [ct|]; by_parts;
    [|reflexivity].
  destruct (JSON_stringify _ 4) as [payload|]; by_parts; reflexivity.
Qed.

Ltac in_tail :=
  repeat first [ now left | right | apply in_or_app; right ].

(** A generator logs how it settles: when it is rejected, its trace
    holds the error message of the generator with the reason of the
    rejection; when it resolves, its trace holds the success message. *)
Theorem generators_log_how_they_settle (env : Env) (this : ConfigBuilder)
    (requestId : jsval) :
  let host := generateHostApConfig cfg env requestId this in
  let agent := generateGatewayAgentConfig cfg env requestId this in
  (forall e, outcome host = Rejected e ->
     In (Log LevelError
           "Error updating host ap configuration. RequestId: [%s]"
           [AVal requestId; AReason e]) (trace host))
  /\ (outcome host = Resolved tt ->
      In (Log LevelInfo
            "Host AP configuration updated successfully. RequestId: [%s]"
            [AVal requestId]) (trace host))
  /\ (forall e, outcome agent = Rejected e ->
        In (Log LevelError
              "Error updating gateway agent configuration. RequestId: [%s]"
              [AVal requestId; AReason e]) (trace agent))
  /\ (outcome agent = Resolved tt ->
      In (Log LevelInfo
            "Gateway agent configuration updated successfully. RequestId: [%s]"
            [AVal requestId]) (trace agent)).
Proof.
  cbv zeta.
  destruct (generateHostApConfig_trace cfg env requestId this) as [Hh _].
  destruct (generateGatewayAgentConfig_trace cfg env requestId this)
    as [Ha _].
  cbv zeta in Hh, Ha. rewrite Hh, Ha. clear Hh Ha.
  rewrite generateHostApConfig_outcome,
    generateGatewayAgentConfig_outcome_by_parts.
  cbv zeta.
  split; [|split; [|split]].
  - intros e.
    destruct (outcome (_getGatewayId cfg env this)) as [ID|e0|];
      [| |discriminate].
    + destruct (outcome (_writeConfig cfg env "hostapd_conf" _ _))
        as [[]|e1|]; try discriminate.
      intros H. injection H as <-. in_tail.
    + intros H. injection H as <-. in_tail.
  - destruct (outcome (_getGatewayId cfg env this)) as [ID|e0|];
      try discriminate.
    destruct (outcome (_writeConfig cfg env "hostapd_conf" _ _))
      as [[]|e1|]; try discriminate.
    intros _. in_tail.
  - intros e.
    destruct (outcome (_getGatewayId cfg env this)) as [ID|e0|];
      [| |discriminate].
    + destruct (outcome (_readExistingConfig env _ true _)) as [config|e1|];
        [| |discriminate].
      * destruct (get_prop config "connectorTypes") as [ct|];
          [discriminate|].
        intros H. injection H as <-. in_tail.
      * intros H. injection H as <-. in_tail.
    + intros H. injection H as <-. in_tail.
  - destruct (outcome (_getGatewayId cfg env this)) as [ID|e0|];
      try discriminate.
    destruct (outcome (_readExistingConfig env _ true _)) as [config|e1|];
      try discriminate.
    destruct (get_prop config "connectorTypes") as [ct|]; [|discriminate].
    intros _. destruct (JSON_stringify _ 4) as [payload|]; in_tail.
Qed.

(** The address is used as a string without a check that it is one: when
    the hardware lookup answers without an error and with something that
    is not a string (nothing, a number, a list), the call is rejected
    with the TypeError of the normalization, the error is logged, and
    nothing is cached. *)
Theorem non_string_mac_is_rejected (env : Env) (this : ConfigBuilder)
    (mac : jsval) :
  truthy_string (_gatewayId this) = false ->
  macaddress_one env (cfg_outbound_network_interface cfg) = LookupOk mac ->
  typeof mac <> TString ->
  let r := _getGatewayId cfg env this in
  outcome r = Rejected TypeError
  /\ after r = this
  /\ trace r = [MacaddressOne (cfg_outbound_network_interface cfg);
                Log LevelError "%s" [AReason TypeError]].
Proof.
  intros Hc Hm Ht r. subst r.
  rewrite (getGatewayId_uncached cfg env this Hc), Hm.
  destruct mac; try (now repeat split).
Qed.

End Logging.

Lemma non_string_mac_is_rejected_witness :
  let env := Sample.host (LookupOk JUndefined) Sample.baseline_X [] [] in
  let r := _getGatewayId Sample.config env Sample.builder in
  outcome r = Rejected TypeError /\ after r = Sample.builder.
Proof.
  destruct (non_string_mac_is_rejected Sample.config
              (Sample.host (LookupOk JUndefined) Sample.baseline_X [] [])
              Sample.builder JUndefined eq_refl eq_refl
              ltac:(discriminate))
    as (H1 & H2 & _).
  split; [exact H1 | exact H2].
Defined.
